(** * QueryChatbot: the question relay handler

    A shallow embedding of the HTTP handler registered by
    [src/functions/QueryChatbot.js] (the axios client) and of its sibling
    that uses node-fetch.  Both files share lines 9-89: parsing of the
    inbound body, selection of the credential, and construction of the
    outbound request.  They differ in the outbound call and in the way its
    outcome is mapped to a response.

    Modelling conventions.
    - A JavaScript value that came out of [JSON.parse] is a [value].
      [undefined] is [None] in an [option value].
    - A JSON text is identified with the value that it denotes;
      [stringified] is [JSON.stringify] read in that way.
    - Awaited calls are described by the way they settle ([promise]);
      time is counted in milliseconds.
    - The handler runs in the [js] monad, which records the calls that
      leave the function and how the computation completes.
    - [context.log] returns normally and is not recorded; the template
      literals it is given are evaluated, because that evaluation can
      throw.
    - The handler is registered with [app.http], the programming model in
      which the context has a [log] method and no [log.error]: each call of
      [context.log.error] throws a TypeError ([context_log_error]). *)

From Stdlib Require Import String Ascii List NArith ZArith Bool Lia.
From Stdlib Require Import DecimalString.
From Stdlib Require Import Floats.SpecFloat.
Import ListNotations.

Open Scope string_scope.
Open Scope N_scope.

(** ** JavaScript values *)

#[local] Set Warnings "-register-all".


Inductive value : Type :=
| JNull
| JBool (b : bool)
| JNum (x : spec_float)
| JStr (s : string)
| JArr (elements : list value)
| JObj (fields : list (string * value)).

(** Own property lookup.  When a key is repeated the last entry wins, as in
    [JSON.parse]. *)
Fixpoint own_property {A : Type} (k : string) (fs : list (string * A)) : option A :=
  match fs with
  | [] => None
  | (k', v) :: rest =>
      match own_property k rest with
      | Some w => Some w
      | None => if String.eqb k k' then Some v else None
      end
  end.

Definition has_own {A : Type} (k : string) (fs : list (string * A)) : bool :=
  match own_property k fs with Some _ => true | None => false end.

Definition number_truthy (x : spec_float) : bool :=
  match x with
  | S754_zero _ => false
  | S754_nan => false
  | S754_infinity _ => true
  | S754_finite _ _ _ => true
  end.

Definition string_truthy (s : string) : bool :=
  match s with EmptyString => false | String _ _ => true end.

(** ToBoolean. *)
Definition truthy (v : value) : bool :=
  match v with
  | JNull => false
  | JBool b => b
  | JNum x => number_truthy x
  | JStr s => string_truthy s
  | JArr _ => true
  | JObj _ => true
  end.

(** [a || b] where [a] may be [undefined]. *)
Definition js_or (a : option value) (b : value) : value :=
  match a with
  | Some v => if truthy v then v else b
  | None => b
  end.

(** Whether ToString throws.  A plain object is converted by the first
    callable among its [toString] and [valueOf]; an own [toString] key
    parsed from JSON is never callable and hides [Object.prototype.toString],
    and [Object.prototype.valueOf] (or an own [valueOf]) never yields a
    primitive, so the conversion ends in a TypeError.  An array is joined,
    converting each element that is not [null]. *)
Fixpoint tostring_throws (v : value) : bool :=
  match v with
  | JArr elements => existsb tostring_throws elements
  | JObj fields => has_own "toString" fields
  | _ => false
  end.

(** [`${n}`] for an integer [n]. *)
Definition decimal (n : N) : string := NilEmpty.string_of_uint (N.to_uint n).

(** ** Errors, promises and the effect monad *)

Record axios_response : Type := {
  response_status : N;
  response_data : value
}.

(** The fields of a thrown object that the handler reads. *)
Record js_error : Type := {
  message : string;
  code : option string;
  response : option axios_response
}.

Definition Error (msg : string) : js_error :=
  {| message := msg; code := None; response := None |}.

Record outbound_query : Type := {
  question : value;
  top : N
}.

(** Calls that leave the handler.  The [data] of an [HttpPost] is the
    query: the object itself when the client is handed the object, and what
    the text denotes when the client is handed a JSON text. *)
Inductive event : Type :=
| GetToken (managedIdentityClientId : option string) (scope : string)
| HttpPost (url : string) (headers : list (string * string))
           (data : outbound_query) (timeout : option N).

Inductive completion (A : Type) : Type :=
| Normal (a : A)
| Throw (e : js_error)
| Pending.
Arguments Normal {A} a.
Arguments Throw {A} e.
Arguments Pending {A}.

Definition js (A : Type) : Type := (list event * completion A)%type.

Definition ret {A : Type} (a : A) : js A := ([], Normal a).
Definition throw {A : Type} (e : js_error) : js A := ([], Throw e).
Definition emit (ev : event) : js unit := ([ev], Normal tt).

Definition bind {A B : Type} (m : js A) (k : A -> js B) : js B :=
  match m with
  | (t, Normal a) => let (t', c) := k a in ((t ++ t')%list, c)
  | (t, Throw e) => (t, Throw e)
  | (t, Pending) => (t, Pending)
  end.

(** [try { m } catch (e) { h e }] *)
Definition try_catch {A : Type} (m : js A) (h : js_error -> js A) : js A :=
  match m with
  | (t, Throw e) => let (t', c) := h e in ((t ++ t')%list, c)
  | other => other
  end.

Declare Scope js_scope.
Delimit Scope js_scope with js.
Notation "x <- m ;; k" := (bind m (fun x => k))
  (at level 61, m at next level, right associativity) : js_scope.
Notation "m ;; k" := (bind m (fun _ => k))
  (at level 61, right associativity) : js_scope.
Open Scope js_scope.

(** A promise, described by the instant at which it settles and by the way
    it settles. *)
Inductive promise (A : Type) : Type :=
| Settles (at_ms : N) (outcome : A + js_error)
| Unsettled.
Arguments Settles {A} at_ms outcome.
Arguments Unsettled {A}.

(** [Promise.race([p, q])]: the one that settles first; [p] on a tie, since
    it is subscribed to first. *)
Definition race {A : Type} (p q : promise A) : promise A :=
  match p, q with
  | Unsettled, _ => q
  | _, Unsettled => p
  | Settles tp _, Settles tq _ => if tp <=? tq then p else q
  end.

(** [new Promise((_, reject) => setTimeout(() => reject(new Error(msg)), ms))] *)
Definition timeoutPromise {A : Type} (ms : N) (msg : string) : promise A :=
  Settles ms (inr (Error msg)).

Definition await {A : Type} (p : promise A) : js A :=
  match p with
  | Settles _ (inl a) => ret a
  | Settles _ (inr e) => throw e
  | Unsettled => ([], Pending)
  end.

(** ** The world around the handler *)

(** [process.env]: each variable is a string or is not set. *)
Record environment : Type := {
  WEBSITE_INSTANCE_ID : option string;
  LANGUAGE_SERVICE_KEY : option string;
  MANAGED_IDENTITY_CLIENT_ID : option string;
  LANGUAGE_SERVICE_ENDPOINT : option string;
  QA_KNOWLEDGE_BASE_ID : option string
}.

(** [!x] for an environment variable: not set, or set to the empty string. *)
Definition not_set (x : option string) : bool :=
  match x with
  | Some s => negb (string_truthy s)
  | None => true
  end.

(** The inbound body as [request.json()] sees it. *)
Inductive request_body : Type :=
| Malformed (why : string)
| Json (v : value).

Definition request_json (request : request_body) : js value :=
  match request with
  | Malformed why => throw (Error why)
  | Json v => ret v
  end.

(** [requestData.question].  Reading a property of [null] throws; a
    primitive or an array has no such property. *)
Definition get_question (requestData : value) : js (option value) :=
  match requestData with
  | JNull => throw (Error "Cannot read properties of null (reading 'question')")
  | JObj fields => ret (own_property "question" fields)
  | _ => ret None
  end.

(** Evaluation of a template literal that interpolates [v]. *)
Definition interpolate (v : value) : js unit :=
  if tostring_throws v
  then throw (Error "Cannot convert object to primitive value")
  else ret tt.

Record access_token : Type := { token : string }.

(** What calling a member that is not there throws. *)
Definition log_error_missing : js_error :=
  {| message := "context.log.error is not a function";
     code := None;
     response := None |}.

(** [context.log.error(...)].  The context that [app.http] hands to the
    handler has [log], [trace], [debug], [info], [warn] and [error] as
    methods of its own; [context.log] is a plain function, so
    [context.log.error] is [undefined] and calling it throws. *)
Definition context_log_error : js unit := throw log_error_missing.

(** The answer of the knowledge-base service: the text of its body together
    with what [JSON.parse] makes of that text (a value, or the message of
    the SyntaxError). *)
Record payload : Type := {
  payload_text : string;
  payload_json : value + string
}.

(** What the request meets.  [Responds] is an answer without a [Location]
    header.  [Redirects] is an answer with one: [location] is the address
    it names, resolved, and [next] is what a request sent there meets.
    [after_ms] is counted from the moment the request is sent. *)
Inductive downstream : Type :=
| Responds (after_ms : N) (status_code : N) (p : payload)
| Redirects (after_ms : N) (status_code : N) (location : string) (p : payload)
            (next : downstream)
| Fails (after_ms : N) (errno : string) (reason : string)
| Silent.

Record http_response : Type := {
  status : N;
  headers : list (string * string);
  body : value
}.

(** *** axios

    The behaviour of the client library: a status outside 200-299 rejects
    with an error that carries the response, a transport failure rejects
    with an error that carries no response, the [timeout] option rejects
    with code ECONNABORTED, and a body that is JSON text is parsed while any
    other body is left as a string.  An answer with a status in 300-399
    and a [Location] header is followed, at most 21 times; the time that
    the [timeout] option bounds runs over the whole chain.  [maxRetries] and
    [retryDelay] are not options of the library and have no effect. *)

Definition validateStatus (s : N) : bool := (200 <=? s) && (s <? 300).

Definition axios_data (p : payload) : value :=
  match payload_json p with
  | inl v => v
  | inr _ => JStr (payload_text p)
  end.

(** How the client settles on an answer that it does not follow. *)
Definition axios_settle (at_ms s : N) (p : payload) : promise axios_response :=
  let r := {| response_status := s; response_data := axios_data p |} in
  if validateStatus s then Settles at_ms (inl r)
  else Settles at_ms (inr {| message := "Request failed with status code " ++ decimal s;
                             code := Some (if (400 <=? s) && (s <? 500)
                                           then "ERR_BAD_REQUEST" else "ERR_BAD_RESPONSE");
                             response := Some r |}).

Fixpoint axios_follow (redirects_left : nat) (elapsed : N) (d : downstream)
    {struct d} : promise axios_response :=
  match d with
  | Responds t s p => axios_settle (elapsed + t) s p
  | Redirects t s location p next =>
      if (300 <=? s) && (s <? 400) then
        match redirects_left with
        | O => Settles (elapsed + t)
                 (inr {| message := "Maximum number of redirects exceeded";
                         code := Some "ERR_FR_TOO_MANY_REDIRECTS";
                         response := None |})
        | S n => axios_follow n (elapsed + t) next
        end
      else axios_settle (elapsed + t) s p
  | Fails t errno reason =>
      Settles (elapsed + t)
        (inr {| message := reason; code := Some errno; response := None |})
  | Silent => Unsettled
  end.

Definition axios_transport (d : downstream) : promise axios_response :=
  axios_follow 21 0 d.

Definition axios_timeout (ms : N) : promise axios_response :=
  Settles ms (inr {| message := "timeout of " ++ decimal ms ++ "ms exceeded";
                     code := Some "ECONNABORTED";
                     response := None |}).

Definition axios (url : string) (data : outbound_query)
    (hdrs : list (string * string)) (timeout : N) (d : downstream)
    : js axios_response :=
  emit (HttpPost url hdrs data (Some timeout)) ;;
  await (race (axios_transport d) (axios_timeout timeout)).

(** *** node-fetch

    The behaviour of the client library: every response resolves, whatever
    its status; a transport failure rejects; there is no timeout.  An
    answer with status 301, 302, 303, 307 or 308 and a [Location] header is
    followed, at most 20 times. *)

Record fetch_response : Type := {
  ok : bool;
  fetch_status : N;
  fetch_body : payload
}.

Definition fetch_redirect (s : N) : bool :=
  (s =? 301) || (s =? 302) || (s =? 303) || (s =? 307) || (s =? 308).

Fixpoint fetch_follow (redirects_left : nat) (elapsed : N) (url : string)
    (d : downstream) {struct d} : promise fetch_response :=
  match d with
  | Responds t s p =>
      Settles (elapsed + t)
        (inl {| ok := validateStatus s; fetch_status := s; fetch_body := p |})
  | Redirects t s location p next =>
      if fetch_redirect s then
        match redirects_left with
        | O => Settles (elapsed + t)
                 (inr (Error ("maximum redirect reached at: " ++ url)))
        | S n => fetch_follow n (elapsed + t) location next
        end
      else Settles (elapsed + t)
             (inl {| ok := validateStatus s; fetch_status := s; fetch_body := p |})
  | Fails t errno reason =>
      Settles (elapsed + t)
        (inr (Error ("request to " ++ url ++ " failed, reason: " ++ reason)))
  | Silent => Unsettled
  end.

Definition fetch_transport (url : string) (d : downstream) : promise fetch_response :=
  fetch_follow 20 0 url d.

(** [fetch(url, { method: 'POST', body, headers })]; [data] is what the text
    [body] denotes. *)
Definition fetch (url : string) (data : outbound_query)
    (hdrs : list (string * string)) (d : downstream) : js fetch_response :=
  emit (HttpPost url hdrs data None) ;;
  await (fetch_transport url d).

Definition response_text (r : fetch_response) : js string :=
  ret (payload_text (fetch_body r)).

Definition response_json (r : fetch_response) : js value :=
  match payload_json (fetch_body r) with
  | inl v => ret v
  | inr why => throw (Error why)
  end.

(** ** The handler *)

(** [JSON.stringify] of a value built from strings and from values that
    came out of [JSON.parse].  A JSON text is identified with the value
    that it denotes: a number that is not finite is written [null], zero is
    written [0] whatever its sign, everything else is written as it is. *)
Fixpoint stringified (v : value) : value :=
  match v with
  | JNum (S754_zero _) => JNum (S754_zero false)
  | JNum (S754_infinity _) => JNull
  | JNum S754_nan => JNull
  | JArr elements => JArr (map stringified elements)
  | JObj fields => JObj (map (fun kv => (fst kv, stringified (snd kv))) fields)
  | other => other
  end.

(** [JSON.stringify(qnaQuery)] *)
Definition stringified_query (query : outbound_query) : outbound_query :=
  {| question := stringified (question query); top := top query |}.

Definition default_question : string := "Tell me about your portfolio".

Definition json_content_type : list (string * string) :=
  [("Content-Type", "application/json")].

Definition invalid_request : http_response :=
  {| status := 400;
     headers := [];
     body := stringified (JObj [("error", JStr "Invalid request format")]) |}.

Definition function_error (error : js_error) : http_response :=
  {| status := 500;
     headers := [];
     body := stringified
               (JObj [("error", JStr "An error occurred processing your request");
                      ("details", JStr (message error))]) |}.

(** Lines 13-21: the question, or the response that ends the invocation. *)
Definition parse_question (request : request_body) : js (http_response + value) :=
  try_catch
    (requestData <- request_json request ;;
     q <- get_question requestData ;;
     let questionText := js_or q (JStr default_question) in
     interpolate questionText ;;
     ret (inr questionText))
    (fun parseError =>
       context_log_error ;;
       ret (inl invalid_request)).

(** [const x = process.env.NAME; if (!x) { throw new Error(msg); }], the
    pattern of lines 33-36, 62-65 and 67-70. *)
Definition required (x : option string) (msg : string) : js string :=
  if not_set x then throw (Error msg)
  else match x with
       | Some s => ret s
       | None => throw (Error msg)
       end.

(** Line 28. *)
Definition isLocalDevelopment (env : environment) : bool :=
  not_set (WEBSITE_INSTANCE_ID env).

(** Lines 30-59: the credential. *)
Definition acquire_accessToken (env : environment)
    (tokenPromise : promise access_token) : js string :=
  if isLocalDevelopment env then
    required (LANGUAGE_SERVICE_KEY env)
      "LANGUAGE_SERVICE_KEY environment variable is required for local development"
  else
    try_catch
      (emit (GetToken (MANAGED_IDENTITY_CLIENT_ID env)
                      "https://cognitiveservices.azure.com/.default") ;;
       tokenResponse <- await (race tokenPromise
                                 (timeoutPromise 10000 "Token acquisition timed out")) ;;
       ret (token tokenResponse))
      (fun authError =>
         context_log_error ;;
         throw (Error ("Failed to authenticate: " ++ message authError))).

Definition qnaUrl (endpoint projectName : string) : string :=
  endpoint ++ "/language/:query-knowledgebases?projectName=" ++ projectName
           ++ "&deploymentName=production&api-version=2023-04-01".

Definition qnaQuery (questionText : value) : outbound_query :=
  {| question := questionText; top := 1 |}.

(** Lines 80-89. *)
Definition auth_headers (local : bool) (accessToken : string)
    : list (string * string) :=
  ("Content-Type", "application/json")
  :: (if local
      then [("Ocp-Apim-Subscription-Key", accessToken)]
      else [("Authorization", "Bearer " ++ accessToken)]).

Section Relay.

(** The outbound call and the mapping of its outcome, where the two
    files differ. *)
Variable call : string -> outbound_query -> list (string * string) -> js http_response.

(** Lines 9-89, followed by the client's part, inside the outer [try]. *)
Definition relay (request : request_body) (env : environment)
    (tokenPromise : promise access_token) : js http_response :=
  parsed <- parse_question request ;;
  match parsed with
  | inl early => ret early
  | inr questionText =>
      accessToken <- acquire_accessToken env tokenPromise ;;
      endpoint <- required (LANGUAGE_SERVICE_ENDPOINT env)
                    "LANGUAGE_SERVICE_ENDPOINT environment variable is not defined" ;;
      projectName <- required (QA_KNOWLEDGE_BASE_ID env)
                       "QA_KNOWLEDGE_BASE_ID environment variable is not defined" ;;
      call (qnaUrl endpoint projectName)
           (qnaQuery questionText)
           (auth_headers (isLocalDevelopment env) accessToken)
  end.

(** The whole function: the outer [catch] logs what was thrown, twice
    (lines 146-147), and then builds the 500 response. *)
Definition guarded (request : request_body) (env : environment)
    (tokenPromise : promise access_token) : js http_response :=
  try_catch (relay request env tokenPromise)
            (fun error =>
               context_log_error ;;
               context_log_error ;;
               ret (function_error error)).

End Relay.

(** *** [src/functions/QueryChatbot.js], lines 91-143 *)

Definition language_service_error (st : N) : string :=
  "Language service error: " ++ decimal st.

Definition axios_catch (axiosError : js_error) : js http_response :=
  let st :=
    match response axiosError with
    | Some r => if response_status r =? 0 then 500 else response_status r
    | None => 500
    end in
  let errorMessage :=
    js_or (option_map response_data (response axiosError))
          (JStr (message axiosError)) in
  context_log_error ;;
  if match code axiosError with
     | Some c => String.eqb c "ECONNABORTED"
     | None => false
     end
  then ret {| status := 504;
              headers := [];
              body := stringified
                        (JObj [("error", JStr "Request to Language service timed out")]) |}
  else match response axiosError with
       | Some _ =>
           ret {| status := st;
                  headers := [];
                  body := stringified
                            (JObj [("error", JStr (language_service_error st));
                                   ("details", errorMessage)]) |}
       | None =>
           ret {| status := 500;
                  headers := [];
                  body := stringified
                            (JObj [("error", JStr "Failed to connect to Language service")]) |}
       end.

Definition axios_call (d : downstream) (url : string) (query : outbound_query)
    (hdrs : list (string * string)) : js http_response :=
  try_catch
    (resp <- axios url query hdrs 15000 d ;;
     ret {| status := 200;
            headers := json_content_type;
            body := stringified (response_data resp) |})
    axios_catch.

(** *** The node-fetch file, lines 91-117 *)

Definition fetch_call (d : downstream) (url : string) (query : outbound_query)
    (hdrs : list (string * string)) : js http_response :=
  resp <- fetch url (stringified_query query) hdrs d ;;
  if negb (ok resp) then
    errorText <- response_text resp ;;
    context_log_error ;;
    ret {| status := fetch_status resp;
           headers := [];
           body := stringified
                     (JObj [("error", JStr (language_service_error (fetch_status resp)))]) |}
  else
    result <- response_json resp ;;
    ret {| status := 200;
           headers := json_content_type;
           body := stringified result |}.

Inductive client : Type := Axios | NodeFetch.

Definition outbound (c : client) (d : downstream) :
    string -> outbound_query -> list (string * string) -> js http_response :=
  match c with
  | Axios => axios_call d
  | NodeFetch => fetch_call d
  end.

(** The handler of either file, run against a request, an environment, a
    token acquisition and a knowledge-base service. *)
Definition handler (c : client) (request : request_body) (env : environment)
    (tokenPromise : promise access_token) (d : downstream) : js http_response :=
  guarded (outbound c d) request env tokenPromise.

(** ** Observations on a run *)

Definition is_outbound (ev : event) : bool :=
  match ev with HttpPost _ _ _ _ => true | GetToken _ _ => false end.

Definition is_token_request (ev : event) : bool :=
  match ev with GetToken _ _ => true | HttpPost _ _ _ _ => false end.

Definition calls {A : Type} (run : js A) : list event := fst run.
Definition result {A : Type} (run : js A) : completion A := snd run.

Definition outbound_issued {A : Type} (run : js A) : bool :=
  existsb is_outbound (calls run).

Definition token_requested {A : Type} (run : js A) : bool :=
  existsb is_token_request (calls run).

(** The queries carried by the outbound calls of a run. *)
Definition outbound_queries {A : Type} (run : js A) : list outbound_query :=
  flat_map (fun ev => match ev with
                      | HttpPost _ _ q _ => [q]
                      | GetToken _ _ => []
                      end) (calls run).

(** ** Sample inputs *)

Definition local_env : environment :=
  {| WEBSITE_INSTANCE_ID := None;
     LANGUAGE_SERVICE_KEY := Some "0123456789abcdef";
     MANAGED_IDENTITY_CLIENT_ID := None;
     LANGUAGE_SERVICE_ENDPOINT := Some "https://portfolio.cognitiveservices.azure.com";
     QA_KNOWLEDGE_BASE_ID := Some "portfolio-kb" |}.

Definition hosted_env : environment :=
  {| WEBSITE_INSTANCE_ID := Some "4f2a";
     LANGUAGE_SERVICE_KEY := None;
     MANAGED_IDENTITY_CLIENT_ID := Some "7c1e";
     LANGUAGE_SERVICE_ENDPOINT := Some "https://portfolio.cognitiveservices.azure.com";
     QA_KNOWLEDGE_BASE_ID := Some "portfolio-kb" |}.

Definition unconfigured_env : environment :=
  {| WEBSITE_INSTANCE_ID := None;
     LANGUAGE_SERVICE_KEY := None;
     MANAGED_IDENTITY_CLIENT_ID := None;
     LANGUAGE_SERVICE_ENDPOINT := None;
     QA_KNOWLEDGE_BASE_ID := None |}.

Definition ask (s : string) : request_body :=
  Json (JObj [("question", JStr s)]).

Definition quick_token : promise access_token :=
  Settles 180 (inl {| token := "eyJ0eXAi" |}).

Definition answers_payload : payload :=
  {| payload_text := "{}";
     payload_json := inl (JObj []) |}.

Definition not_found_payload : payload :=
  {| payload_text := "Resource not found";
     payload_json := inr "Unexpected token R in JSON at position 0" |}.

Definition empty_payload : payload :=
  {| payload_text := EmptyString;
     payload_json := inr "Unexpected end of JSON input" |}.

(** ** The stages of a run *)

(** The part of the inbound body that the parse step hands on: [None] when
    lines 15-17 throw. *)
Definition questionText_of (request : request_body) : option value :=
  match request with
  | Malformed _ => None
  | Json JNull => None
  | Json (JObj fields) =>
      let q := js_or (own_property "question" fields) (JStr default_question) in
      if tostring_throws q then None else Some q
  | Json _ => Some (JStr default_question)
  end.

(** [requestData.question] for a body that is not [null]. *)
Definition question_field (requestData : value) : option value :=
  match requestData with
  | JObj fields => own_property "question" fields
  | _ => None
  end.

(** The calls made while the credential is obtained. *)
Definition token_calls (env : environment) : list event :=
  if isLocalDevelopment env then []
  else [GetToken (MANAGED_IDENTITY_CLIENT_ID env)
                 "https://cognitiveservices.azure.com/.default"].

(** How the outer [try] ends once the outbound call has been reached. *)
Definition finish (before : list event) (m : js http_response) : js http_response :=
  let (t, c) := try_catch m (fun error =>
                               context_log_error ;;
                               context_log_error ;;
                               ret (function_error error)) in
  ((before ++ t)%list, c).

(** The three ways an invocation can go; which one is taken does not depend
    on the client nor on the knowledge-base service. *)
Inductive run_shape (request : request_body) (env : environment)
    (tokenPromise : promise access_token) : Prop :=
| rejected_body :
    questionText_of request = None ->
    (forall c d, handler c request env tokenPromise d = ([], Throw log_error_missing)) ->
    run_shape request env tokenPromise
| failed_before_call (q : value) :
    questionText_of request = Some q ->
    (forall c d, handler c request env tokenPromise d =
                 (token_calls env, Throw log_error_missing)) ->
    run_shape request env tokenPromise
| reached_call (q : value) (accessToken endpoint projectName : string) :
    questionText_of request = Some q ->
    acquire_accessToken env tokenPromise = (token_calls env, Normal accessToken) ->
    LANGUAGE_SERVICE_ENDPOINT env = Some endpoint ->
    not_set (LANGUAGE_SERVICE_ENDPOINT env) = false ->
    QA_KNOWLEDGE_BASE_ID env = Some projectName ->
    not_set (QA_KNOWLEDGE_BASE_ID env) = false ->
    (forall c d, handler c request env tokenPromise d =
       finish (token_calls env)
              (outbound c d (qnaUrl endpoint projectName) (qnaQuery q)
                        (auth_headers (isLocalDevelopment env) accessToken))) ->
    run_shape request env tokenPromise.

(** The invocation gets as far as the outbound call: the parse step hands
    on a question, a credential is obtained after the calls [before], and
    the endpoint and the project are set.  [url], [query] and [hdrs] are
    what the call is then made with. *)
Definition reaches_call (request : request_body) (env : environment)
    (tokenPromise : promise access_token) (before : list event)
    (url : string) (query : outbound_query) (hdrs : list (string * string)) : Prop :=
  exists q accessToken endpoint projectName,
    parse_question request = ([], Normal (inr q))
    /\ acquire_accessToken env tokenPromise = (before, Normal accessToken)
    /\ LANGUAGE_SERVICE_ENDPOINT env = Some endpoint /\ endpoint <> EmptyString
    /\ QA_KNOWLEDGE_BASE_ID env = Some projectName /\ projectName <> EmptyString
    /\ url = qnaUrl endpoint projectName
    /\ query = qnaQuery q
    /\ hdrs = auth_headers (isLocalDevelopment env) accessToken.

(** What the client is handed as the query. *)
Definition handed_over (c : client) (query : outbound_query) : outbound_query :=
  match c with
  | Axios => query
  | NodeFetch => stringified_query query
  end.

(** The same exchange with every answer coming at once. *)
Fixpoint at_once (d : downstream) : downstream :=
  match d with
  | Responds _ s p => Responds 0 s p
  | Redirects _ s location p next => Redirects 0 s location p (at_once next)
  | Fails _ errno reason => Fails 0 errno reason
  | Silent => Silent
  end.

(** Whether a promise settles no later than [ms]. *)
Definition settles_within {A : Type} (ms : N) (p : promise A) : bool :=
  match p with
  | Settles t _ => t <=? ms
  | Unsettled => false
  end.

(** Whether the knowledge-base service is done with the request no later
    than [ms]. *)
Fixpoint completes_within (ms : N) (d : downstream) : bool :=
  match d with
  | Responds t _ _ => t <=? ms
  | Redirects t _ _ _ next => (t <=? ms) && completes_within (ms - t) next
  | Fails t _ _ => t <=? ms
  | Silent => false
  end.

(** The status of the response, when the handler returns one. *)
Definition returned_status (run : js http_response) : option N :=
  match result run with
  | Normal r => Some (status r)
  | _ => None
  end.

(** The [error] field of a response body. *)
Definition error_of (r : http_response) : option value :=
  match body r with
  | JObj fields => own_property "error" fields
  | _ => None
  end.

(** The [timeout] option that each file hands to its client. *)
Definition client_timeout (c : client) : option N :=
  match c with
  | Axios => Some 15000
  | NodeFetch => None
  end.

(** The addresses and the headers of the outbound calls of a run. *)
Definition outbound_urls {A : Type} (run : js A) : list string :=
  flat_map (fun ev => match ev with
                      | HttpPost url _ _ _ => [url]
                      | GetToken _ _ => []
                      end) (calls run).

Definition outbound_headers {A : Type} (run : js A) : list (list (string * string)) :=
  flat_map (fun ev => match ev with
                      | HttpPost _ hdrs _ _ => [hdrs]
                      | GetToken _ _ => []
                      end) (calls run).

Definition outbound_timeouts {A : Type} (run : js A) : list (option N) :=
  flat_map (fun ev => match ev with
                      | HttpPost _ _ _ timeout => [timeout]
                      | GetToken _ _ => []
                      end) (calls run).

(** * Properties *)

(** ** The stages *)

Lemma log_error_escapes {A : Type} (k : unit -> js A) :
  bind context_log_error k = ([], Throw log_error_missing).
Proof. reflexivity. Qed.

Lemma parse_question_eq (request : request_body) :
  parse_question request =
  match questionText_of request with
  | Some q => ([], Normal (inr q))
  | None => ([], Throw log_error_missing)
  end.
Proof.
  destruct request as [why | v]; [reflexivity |].
  destruct v; try reflexivity.
  unfold parse_question, questionText_of, interpolate; simpl.
  destruct (tostring_throws _); reflexivity.
Qed.

Lemma parse_question_inv (request : request_body) (q : value) :
  parse_question request = ([], Normal (inr q)) -> questionText_of request = Some q.
Proof.
  rewrite parse_question_eq.
  destruct (questionText_of request); intros H; inversion H; reflexivity.
Qed.

Lemma required_cases (x : option string) (msg : string) :
  (not_set x = true /\ required x msg = ([], Throw (Error msg)))
  \/ (exists s, x = Some s /\ not_set x = false /\ required x msg = ([], Normal s)).
Proof.
  unfold required.
  destruct x as [[| a s] |]; simpl; auto.
  right. eexists. repeat split.
Qed.

Lemma not_set_false (x : option string) :
  not_set x = false -> exists s, x = Some s /\ s <> EmptyString.
Proof.
  destruct x as [[| a s] |]; simpl; try discriminate.
  intros _. eexists. split; [reflexivity | discriminate].
Qed.

Lemma set_is_not_not_set (s : string) : s <> EmptyString -> not_set (Some s) = false.
Proof. destruct s; [contradiction | reflexivity]. Qed.

(** The credential step always settles, and makes no other call than the
    token request. *)
Lemma acquire_accessToken_cases (env : environment) (tokenPromise : promise access_token) :
  (exists a, acquire_accessToken env tokenPromise = (token_calls env, Normal a))
  \/ (exists e, acquire_accessToken env tokenPromise = (token_calls env, Throw e)).
Proof.
  unfold acquire_accessToken, token_calls.
  destruct (isLocalDevelopment env).
  - destruct (required_cases (LANGUAGE_SERVICE_KEY env)
      "LANGUAGE_SERVICE_KEY environment variable is required for local development")
      as [[_ ->] | (s & _ & _ & ->)]; eauto.
  - destruct tokenPromise as [t [a | e] |]; unfold race, timeoutPromise;
      try destruct (t <=? 10000); simpl; eauto.
Qed.

Lemma acquire_accessToken_calls (env : environment) (tokenPromise : promise access_token)
    (before : list event) (a : string) :
  acquire_accessToken env tokenPromise = (before, Normal a) -> before = token_calls env.
Proof.
  destruct (acquire_accessToken_cases env tokenPromise) as [[a' ->] | [e ->]];
    intros H; inversion H; reflexivity.
Qed.

Lemma token_calls_no_outbound (env : environment) :
  existsb is_outbound (token_calls env) = false.
Proof. unfold token_calls. destruct (isLocalDevelopment env); reflexivity. Qed.

Lemma token_calls_local (env : environment) :
  isLocalDevelopment env = true -> token_calls env = [].
Proof. intros H. unfold token_calls. rewrite H. reflexivity. Qed.

Lemma token_calls_hosted (env : environment) :
  isLocalDevelopment env = false ->
  token_calls env = [GetToken (MANAGED_IDENTITY_CLIENT_ID env)
                              "https://cognitiveservices.azure.com/.default"].
Proof. intros H. unfold token_calls. rewrite H. reflexivity. Qed.

Lemma token_calls_carry_no_request (env : environment) :
  flat_map (fun ev => match ev with
                      | HttpPost url _ _ _ => [url]
                      | GetToken _ _ => []
                      end) (token_calls env) = []
  /\ flat_map (fun ev => match ev with
                         | HttpPost _ hdrs _ _ => [hdrs]
                         | GetToken _ _ => []
                         end) (token_calls env) = []
  /\ flat_map (fun ev => match ev with
                         | HttpPost _ _ _ timeout => [timeout]
                         | GetToken _ _ => []
                         end) (token_calls env) = []
  /\ filter is_outbound (token_calls env) = [].
Proof. unfold token_calls. destruct (isLocalDevelopment env); repeat split. Qed.

Lemma handler_shape (request : request_body) (env : environment)
    (tokenPromise : promise access_token) :
  run_shape request env tokenPromise.
Proof.
  destruct (questionText_of request) as [q |] eqn:Hq.
  2:{ apply rejected_body; [assumption |]. intros c d.
      unfold handler, guarded, relay.
      rewrite parse_question_eq, Hq. reflexivity. }
  destruct (acquire_accessToken_cases env tokenPromise) as [[a Ha] | [e He]].
  2:{ apply (failed_before_call request env tokenPromise q); [assumption |].
      intros c d. unfold handler, guarded, relay.
      rewrite parse_question_eq, Hq. simpl. rewrite He. simpl.
      rewrite app_nil_r. reflexivity. }
  destruct (required_cases (LANGUAGE_SERVICE_ENDPOINT env)
    "LANGUAGE_SERVICE_ENDPOINT environment variable is not defined")
    as [[Hep Rep] | (ep & Hep & Hep' & Rep)].
  { eapply (failed_before_call request env tokenPromise q); [assumption |].
    intros c d. unfold handler, guarded, relay.
    rewrite parse_question_eq, Hq. simpl. rewrite Ha. simpl. rewrite Rep. simpl.
    rewrite !app_nil_r. reflexivity. }
  destruct (required_cases (QA_KNOWLEDGE_BASE_ID env)
    "QA_KNOWLEDGE_BASE_ID environment variable is not defined")
    as [[Hpn Rpn] | (pn & Hpn & Hpn' & Rpn)].
  { eapply (failed_before_call request env tokenPromise q); [assumption |].
    intros c d. unfold handler, guarded, relay.
    rewrite parse_question_eq, Hq. simpl. rewrite Ha. simpl. rewrite Rep. simpl.
    rewrite Rpn. simpl. rewrite !app_nil_r. reflexivity. }
  apply (reached_call request env tokenPromise q a ep pn); try assumption.
  intros c d. unfold handler, guarded, relay, finish.
  rewrite parse_question_eq, Hq. simpl. rewrite Ha. simpl. rewrite Rep. simpl.
  rewrite Rpn. simpl.
  destruct (outbound c d _ _ _) as [t [r | e |]]; simpl;
    rewrite ?app_nil_r; reflexivity.
Qed.

(** ** The outbound call of each client *)

Lemma validateStatus_inside (s : N) : 200 <= s < 300 -> validateStatus s = true.
Proof.
  intros [Hlo Hhi]. unfold validateStatus. apply andb_true_intro.
  split; [apply N.leb_le | apply N.ltb_lt]; assumption.
Qed.

Lemma validateStatus_outside (s : N) : ~ (200 <= s < 300) -> validateStatus s = false.
Proof.
  intros H. unfold validateStatus. apply andb_false_iff.
  destruct (N.leb_spec 200 s); [| auto]. right. apply N.ltb_ge. lia.
Qed.

Lemma axios_catch_throws (axiosError : js_error) :
  axios_catch axiosError = ([], Throw log_error_missing).
Proof. reflexivity. Qed.

(** The outbound call of the axios file, by the way its client settles. *)
Lemma axios_call_eq (d : downstream) (url : string) (query : outbound_query)
    (hdrs : list (string * string)) :
  axios_call d url query hdrs =
  ([HttpPost url hdrs query (Some 15000)],
   match axios_transport d with
   | Settles t (inl resp) =>
       if t <=? 15000
       then Normal {| status := 200;
                      headers := json_content_type;
                      body := stringified (response_data resp) |}
       else Throw log_error_missing
   | _ => Throw log_error_missing
   end).
Proof.
  unfold axios_call, axios.
  destruct (axios_transport d) as [t [resp | e] |];
    unfold race, axios_timeout; try destruct (t <=? 15000); reflexivity.
Qed.

(** The outbound call of the node-fetch file, by the way its client
    settles. *)
Lemma fetch_call_eq (d : downstream) (url : string) (query : outbound_query)
    (hdrs : list (string * string)) :
  fetch_call d url query hdrs =
  ([HttpPost url hdrs (stringified_query query) None],
   match fetch_transport url d with
   | Settles _ (inl resp) =>
       if ok resp
       then match payload_json (fetch_body resp) with
            | inl v => Normal {| status := 200;
                                 headers := json_content_type;
                                 body := stringified v |}
            | inr why => Throw (Error why)
            end
       else Throw log_error_missing
   | Settles _ (inr e) => Throw e
   | Unsettled => Pending
   end).
Proof.
  unfold fetch_call, fetch.
  destruct (fetch_transport url d) as [t [resp | e] |]; simpl; try reflexivity.
  destruct (ok resp); simpl; [| reflexivity].
  unfold response_json. destruct (payload_json (fetch_body resp)); reflexivity.
Qed.

Lemma outbound_calls_exact (c : client) (d : downstream) (url : string)
    (query : outbound_query) (hdrs : list (string * string)) :
  calls (outbound c d url query hdrs) =
  [HttpPost url hdrs (handed_over c query) (client_timeout c)].
Proof.
  destruct c; simpl; [rewrite axios_call_eq | rewrite fetch_call_eq]; reflexivity.
Qed.

Lemma finish_calls (before : list event) (m : js http_response) :
  calls (finish before m) = (before ++ calls m)%list.
Proof.
  unfold finish, try_catch, calls.
  destruct m as [t [r | e |]]; simpl; rewrite ?app_nil_r; reflexivity.
Qed.

Lemma finish_result (before : list event) (m : js http_response) :
  result (finish before m) =
  match result m with
  | Throw e => Throw log_error_missing
  | other => other
  end.
Proof.
  unfold finish, try_catch, result.
  destruct m as [t [r | e |]]; reflexivity.
Qed.

Lemma finish_eq (before : list event) (m : js http_response) :
  finish before m =
  ((before ++ calls m)%list,
   match result m with
   | Throw e => Throw log_error_missing
   | other => other
   end).
Proof.
  unfold finish, try_catch, calls, result.
  destruct m as [t [r | e |]]; simpl; rewrite ?app_nil_r; reflexivity.
Qed.

Lemma calls_when_reached (c : client) (d : downstream) (env : environment)
    (url : string) (query : outbound_query) (hdrs : list (string * string)) :
  calls (finish (token_calls env) (outbound c d url query hdrs)) =
  (token_calls env ++ [HttpPost url hdrs (handed_over c query) (client_timeout c)])%list.
Proof. rewrite finish_calls, outbound_calls_exact. reflexivity. Qed.

Lemma not_issued_before_call {A : Type} (env : environment) (c : completion A) :
  outbound_issued ((token_calls env, c) : js A) = false.
Proof. apply token_calls_no_outbound. Qed.

Lemma issued_when_reached (c : client) (d : downstream) (env : environment)
    (url : string) (query : outbound_query) (hdrs : list (string * string)) :
  outbound_issued (finish (token_calls env) (outbound c d url query hdrs)) = true.
Proof.
  unfold outbound_issued. rewrite calls_when_reached, existsb_app.
  simpl. apply orb_true_r.
Qed.

Lemma queries_when_reached (c : client) (d : downstream) (env : environment)
    (url : string) (query : outbound_query) (hdrs : list (string * string)) :
  outbound_queries (finish (token_calls env) (outbound c d url query hdrs)) =
  [handed_over c query].
Proof.
  unfold outbound_queries. rewrite calls_when_reached, flat_map_app.
  unfold token_calls. destruct (isLocalDevelopment env); reflexivity.
Qed.

Lemma queries_before_call {A : Type} (env : environment) (c : completion A) :
  outbound_queries ((token_calls env, c) : js A) = [].
Proof.
  unfold outbound_queries, calls, token_calls; simpl.
  destruct (isLocalDevelopment env); reflexivity.
Qed.

(** What is known of a run in which the outbound call is issued. *)
Lemma outbound_issued_full (c : client) (request : request_body) (env : environment)
    (tokenPromise : promise access_token) (d : downstream) :
  outbound_issued (handler c request env tokenPromise d) = true ->
  exists q accessToken endpoint projectName,
    questionText_of request = Some q
    /\ acquire_accessToken env tokenPromise = (token_calls env, Normal accessToken)
    /\ LANGUAGE_SERVICE_ENDPOINT env = Some endpoint
    /\ QA_KNOWLEDGE_BASE_ID env = Some projectName
    /\ forall c' d',
         handler c' request env tokenPromise d' =
         finish (token_calls env)
                (outbound c' d' (qnaUrl endpoint projectName) (qnaQuery q)
                          (auth_headers (isLocalDevelopment env) accessToken)).
Proof.
  intros H.
  destruct (handler_shape request env tokenPromise)
    as [_ E | q _ E | q a ep pn Hq Ha Hep _ Hpn _ E].
  - rewrite E in H. discriminate.
  - rewrite E, not_issued_before_call in H. discriminate.
  - exists q, a, ep, pn. auto.
Qed.

(** The run of an invocation that gets as far as the outbound call. *)
Lemma handler_when_reached (c : client) (request : request_body) (env : environment)
    (tokenPromise : promise access_token) (d : downstream) (before : list event)
    (url : string) (query : outbound_query) (hdrs : list (string * string)) :
  reaches_call request env tokenPromise before url query hdrs ->
  handler c request env tokenPromise d =
  ((before ++ [HttpPost url hdrs (handed_over c query) (client_timeout c)])%list,
   match result (outbound c d url query hdrs) with
   | Throw e => Throw log_error_missing
   | other => other
   end).
Proof.
  intros (q & a & ep & pn & Hp & Ha & Hep & Hep' & Hpn & Hpn' & -> & -> & ->).
  apply parse_question_inv in Hp.
  pose proof (acquire_accessToken_calls _ _ _ _ Ha) as ->.
  destruct (handler_shape request env tokenPromise)
    as [Hn _ | q' _ E | q' a' ep' pn' Hq' Ha' Hepx _ Hpnx _ E].
  - congruence.
  - exfalso.
    pose proof (E c d) as E'. unfold handler, guarded, relay in E'.
    rewrite parse_question_eq, Hp in E'. simpl in E'. rewrite Ha in E'. simpl in E'.
    unfold required in E'.
    rewrite Hep, Hpn, (set_is_not_not_set ep Hep'), (set_is_not_not_set pn Hpn') in E'.
    simpl in E'.
    pose proof (outbound_calls_exact c d (qnaUrl ep pn) (qnaQuery q)
                  (auth_headers (isLocalDevelopment env) a)) as Hc.
    destruct (outbound c d (qnaUrl ep pn) (qnaQuery q)
                (auth_headers (isLocalDevelopment env) a)) as [t [r | e |]];
      unfold calls in Hc; simpl in Hc; subst t; simpl in E';
      inversion E' as [Hcalls];
      apply (f_equal (existsb is_outbound)) in Hcalls;
      rewrite ?app_nil_r, existsb_app, !token_calls_no_outbound in Hcalls;
      discriminate.
  - rewrite E, finish_eq, outbound_calls_exact.
    assert (q' = q) by congruence. assert (a' = a) by congruence.
    assert (ep' = ep) by congruence. assert (pn' = pn) by congruence.
    subst. reflexivity.
Qed.

Lemma axios_call_success (t s : N) (p : payload) (url : string)
    (query : outbound_query) (hdrs : list (string * string)) :
  t <= 15000 -> validateStatus s = true ->
  axios_call (Responds t s p) url query hdrs =
  ([HttpPost url hdrs query (Some 15000)],
   Normal {| status := 200;
             headers := json_content_type;
             body := stringified (axios_data p) |}).
Proof.
  intros Ht Hs. apply N.leb_le in Ht.
  rewrite axios_call_eq. unfold axios_transport; simpl.
  unfold axios_settle. rewrite Hs, Ht. reflexivity.
Qed.

Lemma axios_call_bad_status (t s : N) (p : payload) (url : string)
    (query : outbound_query) (hdrs : list (string * string)) :
  validateStatus s = false ->
  axios_call (Responds t s p) url query hdrs =
  ([HttpPost url hdrs query (Some 15000)], Throw log_error_missing).
Proof.
  intros Hs. rewrite axios_call_eq. unfold axios_transport; simpl.
  unfold axios_settle. rewrite Hs. reflexivity.
Qed.

Lemma fetch_call_success (t s : N) (p : payload) (v : value) (url : string)
    (query : outbound_query) (hdrs : list (string * string)) :
  validateStatus s = true -> payload_json p = inl v ->
  fetch_call (Responds t s p) url query hdrs =
  ([HttpPost url hdrs (stringified_query query) None],
   Normal {| status := 200; headers := json_content_type; body := stringified v |}).
Proof.
  intros Hs Hv. rewrite fetch_call_eq. unfold fetch_transport; simpl.
  rewrite Hs, Hv. reflexivity.
Qed.

Lemma fetch_call_bad_status (t s : N) (p : payload) (url : string)
    (query : outbound_query) (hdrs : list (string * string)) :
  validateStatus s = false ->
  fetch_call (Responds t s p) url query hdrs =
  ([HttpPost url hdrs (stringified_query query) None], Throw log_error_missing).
Proof.
  intros Hs. rewrite fetch_call_eq. unfold fetch_transport; simpl.
  rewrite Hs. reflexivity.
Qed.

(** A response that either call returns is a 200 with the JSON content
    type. *)
Lemma outbound_returns_success_only (c : client) (d : downstream) (url : string)
    (query : outbound_query) (hdrs : list (string * string)) (r : http_response) :
  result (outbound c d url query hdrs) = Normal r ->
  status r = 200 /\ headers r = json_content_type.
Proof.
  destruct c; simpl; [rewrite axios_call_eq | rewrite fetch_call_eq];
    unfold result; simpl.
  - destruct (axios_transport d) as [t [resp | e] |]; try discriminate.
    destruct (t <=? 15000); [| discriminate].
    intros H; inversion H; auto.
  - destruct (fetch_transport url d) as [t [resp | e] |]; try discriminate.
    destruct (ok resp); [| discriminate].
    destruct (payload_json (fetch_body resp)); [| discriminate].
    intros H; inversion H; auto.
Qed.

(** The node-fetch client settles in the same way whenever the answers
    come. *)
Lemma fetch_follow_at_once (n : nat) (e e' : N) (url : string) (d : downstream) :
  match fetch_follow n e url d with
  | Settles _ o => exists t', fetch_follow n e' url (at_once d) = Settles t' o
  | Unsettled => fetch_follow n e' url (at_once d) = Unsettled
  end.
Proof.
  revert n e e' url.
  induction d as [t s p | t s location p next IH | t errno reason |];
    intros n e e' url; simpl.
  - eexists; reflexivity.
  - destruct (fetch_redirect s); [| eexists; reflexivity].
    destruct n; [eexists; reflexivity | apply IH].
  - eexists; reflexivity.
  - reflexivity.
Qed.

Lemma fetch_call_at_once (d : downstream) (url : string) (query : outbound_query)
    (hdrs : list (string * string)) :
  fetch_call (at_once d) url query hdrs = fetch_call d url query hdrs.
Proof.
  rewrite !fetch_call_eq. f_equal. unfold fetch_transport.
  pose proof (fetch_follow_at_once 20 0 0 url d) as H.
  destruct (fetch_follow 20 0 url d) as [t o |];
    [destruct H as [t' ->] | rewrite H]; reflexivity.
Qed.

(** ** What the parse step hands on *)

Lemma stringified_not_empty (q : value) :
  stringified q = JStr EmptyString -> q = JStr EmptyString.
Proof.
  destruct q as [| b | x | s | l | fs]; simpl; try discriminate; auto.
  destruct x; discriminate.
Qed.

Lemma stringified_truthy (q : value) :
  truthy q = true -> truthy (stringified q) = true \/ stringified q = JNull.
Proof.
  destruct q as [| b | x | s | l | fs]; simpl; auto.
  destruct x; simpl; auto.
Qed.

Lemma questionText_is_sound (request : request_body) (q : value) :
  questionText_of request = Some q ->
  truthy q = true /\ tostring_throws q = false.
Proof.
  destruct request as [why | v]; [discriminate |].
  destruct v; simpl; try discriminate;
    try (intros H; inversion H; subst; split; reflexivity).
  unfold js_or.
  destruct (own_property "question" fields) as [w |].
  - destruct (truthy w) eqn:Hw.
    + destruct (tostring_throws w) eqn:Hs; [discriminate |].
      intros H; inversion H; subst. auto.
    + simpl. intros H; inversion H; subst. split; reflexivity.
  - simpl. intros H; inversion H; subst. split; reflexivity.
Qed.

Lemma questionText_not_empty (request : request_body) (q : value) :
  questionText_of request = Some q -> q <> JStr EmptyString.
Proof.
  intros H. destruct (questionText_is_sound request q H) as [Ht _].
  intros ->. discriminate.
Qed.

(** Every outbound query of a run comes from the question that the parse
    step handed on, and asks for one answer. *)
Lemma handler_queries (c : client) (request : request_body) (env : environment)
    (tokenPromise : promise access_token) (d : downstream) (oq : outbound_query) :
  In oq (outbound_queries (handler c request env tokenPromise d)) ->
  exists q, questionText_of request = Some q
            /\ oq = handed_over c {| question := q; top := 1 |}.
Proof.
  intros H.
  destruct (handler_shape request env tokenPromise)
    as [_ E | q _ E | q a ep pn Hq _ _ _ _ _ E]; rewrite E in H.
  - contradiction.
  - rewrite queries_before_call in H. contradiction.
  - rewrite queries_when_reached in H. destruct H as [<- | []].
    exists q. split; [assumption | reflexivity].
Qed.

Lemma handler_queries_eq (c : client) (request : request_body) (env : environment)
    (tokenPromise : promise access_token) (d : downstream) (q : value) :
  questionText_of request = Some q ->
  outbound_queries (handler c request env tokenPromise d) =
  if outbound_issued (handler c request env tokenPromise d)
  then [handed_over c {| question := q; top := 1 |}] else [].
Proof.
  intros Hq.
  destruct (handler_shape request env tokenPromise)
    as [Hn _ | q' _ E | q' a ep pn Hq' _ _ _ _ _ E].
  - congruence.
  - rewrite E, queries_before_call, not_issued_before_call. reflexivity.
  - rewrite E, queries_when_reached, issued_when_reached.
    unfold qnaQuery. congruence.
Qed.

(** The request matters only through what the parse step hands on. *)
Lemma handler_depends_on_questionText (c : client) (r1 r2 : request_body)
    (env : environment) (tokenPromise : promise access_token) (d : downstream) :
  questionText_of r1 = questionText_of r2 ->
  handler c r1 env tokenPromise d = handler c r2 env tokenPromise d.
Proof.
  intros H. unfold handler, guarded, relay.
  rewrite !parse_question_eq, H. reflexivity.
Qed.

(** Whether the outbound call is issued does not depend on the client. *)
Lemma outbound_issued_any_client (c c' : client) (request : request_body)
    (env : environment) (tokenPromise : promise access_token) (d d' : downstream) :
  outbound_issued (handler c request env tokenPromise d) =
  outbound_issued (handler c' request env tokenPromise d').
Proof.
  destruct (handler_shape request env tokenPromise)
    as [_ E | q _ E | q a ep pn _ _ _ _ _ _ E]; rewrite !E;
    rewrite ?issued_when_reached, ?not_issued_before_call; reflexivity.
Qed.

Lemma node_fetch_at_once (request : request_body) (env : environment)
    (tokenPromise : promise access_token) (d : downstream) :
  handler NodeFetch request env tokenPromise (at_once d) =
  handler NodeFetch request env tokenPromise d.
Proof.
  destruct (handler_shape request env tokenPromise)
    as [_ E | q _ E | q a ep pn _ _ _ _ _ _ E]; rewrite !E; try reflexivity.
  simpl. rewrite fetch_call_at_once. reflexivity.
Qed.

Lemma acquire_accessToken_late (env : environment) (tokenPromise : promise access_token) :
  isLocalDevelopment env = false ->
  settles_within 10000 tokenPromise = false ->
  acquire_accessToken env tokenPromise =
  ([GetToken (MANAGED_IDENTITY_CLIENT_ID env) "https://cognitiveservices.azure.com/.default"],
   Throw log_error_missing).
Proof.
  intros Hl Ht. unfold acquire_accessToken. rewrite Hl.
  destruct tokenPromise as [t o |]; simpl in Ht.
  - unfold race, timeoutPromise. rewrite Ht. reflexivity.
  - reflexivity.
Qed.

Lemma acquire_accessToken_rejected (env : environment) (t : N) (e : js_error) :
  isLocalDevelopment env = false ->
  t <= 10000 ->
  acquire_accessToken env (Settles t (inr e)) =
  ([GetToken (MANAGED_IDENTITY_CLIENT_ID env) "https://cognitiveservices.azure.com/.default"],
   Throw log_error_missing).
Proof.
  intros Hl Ht. apply N.leb_le in Ht.
  unfold acquire_accessToken, race, timeoutPromise. rewrite Hl, Ht. reflexivity.
Qed.

(** The outcome of a run that requested a token and did not obtain a
    credential. *)
Lemma handler_without_credential (c : client) (request : request_body)
    (env : environment) (tokenPromise : promise access_token) (d : downstream)
    (before : list event) (e : js_error) :
  token_requested (handler c request env tokenPromise d) = true ->
  acquire_accessToken env tokenPromise = (before, Throw e) ->
  handler c request env tokenPromise d = (before, Throw log_error_missing).
Proof.
  intros Hreq Ha.
  destruct (questionText_of request) as [q |] eqn:Hq.
  - unfold handler, guarded, relay.
    rewrite parse_question_eq, Hq. unfold bind at 1. cbv beta iota.
    rewrite Ha. simpl. rewrite app_nil_r. reflexivity.
  - unfold handler, guarded, relay in Hreq.
    rewrite parse_question_eq, Hq in Hreq. discriminate.
Qed.

(** ** Sample runs *)

Lemma local_ask_reaches_call :
  reaches_call (ask "Which projects use Azure?") local_env Unsettled []
    "https://portfolio.cognitiveservices.azure.com/language/:query-knowledgebases?projectName=portfolio-kb&deploymentName=production&api-version=2023-04-01"
    {| question := JStr "Which projects use Azure?"; top := 1 |}
    [("Content-Type", "application/json");
     ("Ocp-Apim-Subscription-Key", "0123456789abcdef")].
Proof.
  exists (JStr "Which projects use Azure?"), "0123456789abcdef",
    "https://portfolio.cognitiveservices.azure.com", "portfolio-kb".
  repeat split; discriminate.
Defined.

Lemma hosted_ask_reaches_call :
  reaches_call (ask "Which projects use Azure?") hosted_env quick_token
    [GetToken (Some "7c1e") "https://cognitiveservices.azure.com/.default"]
    "https://portfolio.cognitiveservices.azure.com/language/:query-knowledgebases?projectName=portfolio-kb&deploymentName=production&api-version=2023-04-01"
    {| question := JStr "Which projects use Azure?"; top := 1 |}
    [("Content-Type", "application/json"); ("Authorization", "Bearer eyJ0eXAi")].
Proof.
  exists (JStr "Which projects use Azure?"), "eyJ0eXAi",
    "https://portfolio.cognitiveservices.azure.com", "portfolio-kb".
  repeat split; discriminate.
Defined.

(** * The handler against its specification *)

(** C4.  A body that [request.json()] cannot parse makes the inner [catch]
    call [context.log.error] (line 19), which throws; the outer [catch]
    calls it again (line 146) and throws too.  The 400 response of line 20
    is never returned: the handler rejects, and no call has left it. *)
Theorem malformed_body_makes_handler_throw (c : client) (why : string)
    (env : environment) (tokenPromise : promise access_token) (d : downstream) :
  calls (handler c (Malformed why) env tokenPromise d) = []
  /\ result (handler c (Malformed why) env tokenPromise d) =
     Throw {| message := "context.log.error is not a function";
              code := None;
              response := None |}.
Proof. split; reflexivity. Qed.

(** C3.  When the inbound body is a JSON object whose [question] is a
    non-empty string, the parse step hands that string on unchanged, and the
    query of the outbound call, whenever the call is issued, is
    [{ question: <that string>, top: 1 }]. *)
Theorem question_is_sent_verbatim (c : client) (fields : list (string * value))
    (s : string) (env : environment) (tokenPromise : promise access_token)
    (d : downstream) :
  own_property "question" fields = Some (JStr s) ->
  s <> EmptyString ->
  parse_question (Json (JObj fields)) = ([], Normal (inr (JStr s)))
  /\ outbound_queries (handler c (Json (JObj fields)) env tokenPromise d) =
     if outbound_issued (handler c (Json (JObj fields)) env tokenPromise d)
     then [{| question := JStr s; top := 1 |}] else [].
Proof.
  intros Hq Hs.
  assert (Hp : questionText_of (Json (JObj fields)) = Some (JStr s)).
  { unfold questionText_of. rewrite Hq. destruct s; [contradiction | reflexivity]. }
  split.
  - rewrite parse_question_eq, Hp. reflexivity.
  - rewrite (handler_queries_eq _ _ _ _ _ _ Hp). destruct c; reflexivity.
Qed.

Lemma question_is_sent_verbatim_witness :
  outbound_queries (handler Axios (ask "Which projects use Azure?") local_env
                            Unsettled (Responds 40 200 answers_payload)) =
  [{| question := JStr "Which projects use Azure?"; top := 1 |}].
Proof.
  apply (question_is_sent_verbatim Axios
           [("question", JStr "Which projects use Azure?")]
           "Which projects use Azure?" local_env Unsettled
           (Responds 40 200 answers_payload)).
  - reflexivity.
  - discriminate.
Defined.

(** C8.  In hosted mode, when the token request of the invocation has not
    settled after 10 seconds, the timer wins the race; the inner [catch]
    then calls [context.log.error] (line 56), which throws before the
    message is wrapped, and the outer [catch] throws in the same way
    (line 146).  No 500 is returned: the handler rejects; the outbound call
    is not issued. *)
Theorem token_timeout_makes_handler_throw (c : client) (request : request_body)
    (env : environment) (tokenPromise : promise access_token) (d : downstream) :
  isLocalDevelopment env = false ->
  token_requested (handler c request env tokenPromise d) = true ->
  settles_within 10000 tokenPromise = false ->
  race tokenPromise (timeoutPromise 10000 "Token acquisition timed out")
    = timeoutPromise 10000 "Token acquisition timed out"
  /\ acquire_accessToken env tokenPromise =
     ([GetToken (MANAGED_IDENTITY_CLIENT_ID env)
                "https://cognitiveservices.azure.com/.default"],
      Throw log_error_missing)
  /\ result (handler c request env tokenPromise d) = Throw log_error_missing
  /\ outbound_issued (handler c request env tokenPromise d) = false.
Proof.
  intros Hl Hreq Ht. split.
  { destruct tokenPromise as [t o |]; simpl in Ht; unfold race, timeoutPromise;
      rewrite ?Ht; reflexivity. }
  pose proof (acquire_accessToken_late env tokenPromise Hl Ht) as Ha.
  split; [exact Ha |].
  rewrite (handler_without_credential _ _ _ _ _ _ _ Hreq Ha). split; reflexivity.
Qed.

Lemma token_timeout_makes_handler_throw_witness :
  result (handler Axios (ask "Which projects use Azure?") hosted_env
                  Unsettled (Responds 40 200 answers_payload)) = Throw log_error_missing
  /\ outbound_issued (handler Axios (ask "Which projects use Azure?") hosted_env
                              Unsettled (Responds 40 200 answers_payload)) = false.
Proof.
  destruct (token_timeout_makes_handler_throw Axios (ask "Which projects use Azure?")
              hosted_env Unsettled (Responds 40 200 answers_payload)
              eq_refl eq_refl eq_refl) as (_ & _ & Hr & Hn).
  split; assumption.
Defined.

(** C7.  When a required configuration value is not set (the key in local
    mode, the endpoint or the project identifier in any mode), the outbound
    call is not issued; the outer [catch] calls [context.log.error]
    (line 146), which throws, so the 500 response of line 148 is never
    returned: the handler rejects. *)
Theorem missing_configuration_makes_handler_throw (c : client) (request : request_body)
    (env : environment) (tokenPromise : promise access_token) (d : downstream) :
  (isLocalDevelopment env = true /\ not_set (LANGUAGE_SERVICE_KEY env) = true)
  \/ not_set (LANGUAGE_SERVICE_ENDPOINT env) = true
  \/ not_set (QA_KNOWLEDGE_BASE_ID env) = true ->
  result (handler c request env tokenPromise d) = Throw log_error_missing
  /\ outbound_issued (handler c request env tokenPromise d) = false.
Proof.
  intros Hmissing.
  destruct (handler_shape request env tokenPromise)
    as [_ E | q _ E | q a ep pn _ Ha _ Hep _ Hpn _]; rewrite ?E.
  - split; reflexivity.
  - rewrite not_issued_before_call. split; reflexivity.
  - exfalso. destruct Hmissing as [[Hl Hk] | [H | H]]; [| congruence | congruence].
    unfold acquire_accessToken, required in Ha. rewrite Hl, Hk in Ha. discriminate.
Qed.

Lemma missing_configuration_makes_handler_throw_witness :
  result (handler Axios (ask "Which projects use Azure?") unconfigured_env
                  Unsettled (Responds 40 200 answers_payload)) = Throw log_error_missing
  /\ outbound_issued (handler Axios (ask "Which projects use Azure?") unconfigured_env
                              Unsettled (Responds 40 200 answers_payload)) = false.
Proof.
  apply (missing_configuration_makes_handler_throw Axios
           (ask "Which projects use Azure?") unconfigured_env Unsettled
           (Responds 40 200 answers_payload) (or_introl (conj eq_refl eq_refl))).
Defined.

(** C5, as the code has it.  When the invocation gets as far as the
    outbound call and the call is answered with a status in [200,300) and a
    body that is JSON (within the 15 seconds that the axios file allows),
    the handler answers 200 with the JSON content type, and its body is
    [JSON.stringify] of the value parsed from the answer. *)
Theorem json_success_is_passed_through (c : client) (request : request_body)
    (env : environment) (tokenPromise : promise access_token)
    (before : list event) (url : string) (query : outbound_query)
    (hdrs : list (string * string)) (t s : N) (p : payload) (v : value) :
  reaches_call request env tokenPromise before url query hdrs ->
  200 <= s < 300 ->
  (c = Axios -> t <= 15000) ->
  payload_json p = inl v ->
  handler c request env tokenPromise (Responds t s p) =
  ((before ++ [HttpPost url hdrs (handed_over c query) (client_timeout c)])%list,
   Normal {| status := 200;
             headers := [("Content-Type", "application/json")];
             body := stringified v |}).
Proof.
  intros Hreach Hs Ht Hv. apply validateStatus_inside in Hs.
  rewrite (handler_when_reached c _ _ _ (Responds t s p) _ _ _ _ Hreach).
  f_equal. destruct c; simpl.
  - rewrite axios_call_success by auto. unfold axios_data. rewrite Hv. reflexivity.
  - rewrite (fetch_call_success t s p v) by auto. reflexivity.
Qed.

Lemma json_success_is_passed_through_witness :
  result (handler Axios (ask "Which projects use Azure?") local_env Unsettled
                  (Responds 40 200 answers_payload)) =
    Normal {| status := 200;
              headers := [("Content-Type", "application/json")];
              body := JObj [] |}
  /\ result (handler NodeFetch (ask "Which projects use Azure?") hosted_env quick_token
                     (Responds 40 200 answers_payload)) =
    Normal {| status := 200;
              headers := [("Content-Type", "application/json")];
              body := JObj [] |}.
Proof.
  split.
  - rewrite (json_success_is_passed_through Axios _ _ _ _ _ _ _ 40 200 answers_payload
               (JObj []) local_ask_reaches_call ltac:(lia)
               (fun _ => ltac:(apply N.leb_le; reflexivity)) eq_refl).
    reflexivity.
  - rewrite (json_success_is_passed_through NodeFetch _ _ _ _ _ _ _ 40 200 answers_payload
               (JObj []) hosted_ask_reaches_call ltac:(lia)
               (fun H => ltac:(discriminate H)) eq_refl).
    reflexivity.
Defined.

(** C5, counterexample.  In the node-fetch file an answer 204 with an empty
    body has a status in [200,300), yet [response.json()] throws on it: the
    handler does not answer 200, it rejects. *)
Lemma empty_success_is_not_passed_through :
  outbound_issued (handler NodeFetch (ask "Which projects use Azure?") local_env
                           Unsettled (Responds 40 204 empty_payload)) = true
  /\ validateStatus 204 = true
  /\ result (handler NodeFetch (ask "Which projects use Azure?") local_env
                     Unsettled (Responds 40 204 empty_payload)) = Throw log_error_missing
  /\ returned_status (handler NodeFetch (ask "Which projects use Azure?") local_env
                              Unsettled (Responds 40 204 empty_payload)) <> Some 200.
Proof. repeat split. discriminate. Qed.

(** C6.  When the invocation gets as far as the outbound call and the call
    is answered with a status outside [200,300), both files call
    [context.log.error] before they build the response that relays the
    status (line 119, and line 100 of the node-fetch file); the call
    throws, and so does the outer [catch].  The status is not relayed: the
    handler rejects. *)
Theorem failure_status_is_not_relayed (c : client) (request : request_body)
    (env : environment) (tokenPromise : promise access_token)
    (before : list event) (url : string) (query : outbound_query)
    (hdrs : list (string * string)) (t s : N) (p : payload) :
  reaches_call request env tokenPromise before url query hdrs ->
  ~ (200 <= s < 300) ->
  handler c request env tokenPromise (Responds t s p) =
  ((before ++ [HttpPost url hdrs (handed_over c query) (client_timeout c)])%list,
   Throw log_error_missing).
Proof.
  intros Hreach Hs. apply validateStatus_outside in Hs.
  rewrite (handler_when_reached c _ _ _ (Responds t s p) _ _ _ _ Hreach).
  f_equal. destruct c; simpl.
  - rewrite axios_call_bad_status by assumption. reflexivity.
  - rewrite fetch_call_bad_status by assumption. reflexivity.
Qed.

Lemma failure_status_is_not_relayed_witness :
  result (handler Axios (ask "Which projects use Azure?") local_env Unsettled
                  (Responds 40 404 not_found_payload)) = Throw log_error_missing
  /\ result (handler NodeFetch (ask "Which projects use Azure?") local_env Unsettled
                     (Responds 40 404 not_found_payload)) = Throw log_error_missing.
Proof.
  split.
  - rewrite (failure_status_is_not_relayed Axios _ _ _ _ _ _ _ 40 404 not_found_payload
               local_ask_reaches_call ltac:(lia)).
    reflexivity.
  - rewrite (failure_status_is_not_relayed NodeFetch _ _ _ _ _ _ _ 40 404
               not_found_payload local_ask_reaches_call ltac:(lia)).
    reflexivity.
Defined.

(** C2, as the code has it.  The node-fetch file sets no bound on its
    outbound call.  When the invocation gets as far as that call, the call
    is issued, the run is the one that the same answers would give if they
    came at once, the 504 response with "Request to Language service timed
    out" is never the result, and the handler does not return while the
    knowledge-base service stays silent. *)
Theorem node_fetch_sets_no_bound (request : request_body) (env : environment)
    (tokenPromise : promise access_token) (d : downstream)
    (before : list event) (url : string) (query : outbound_query)
    (hdrs : list (string * string)) :
  reaches_call request env tokenPromise before url query hdrs ->
  calls (handler NodeFetch request env tokenPromise d) =
    (before ++ [HttpPost url hdrs (stringified_query query) None])%list
  /\ handler NodeFetch request env tokenPromise d =
     handler NodeFetch request env tokenPromise (at_once d)
  /\ result (handler NodeFetch request env tokenPromise d) <>
     Normal {| status := 504;
               headers := [];
               body := JObj [("error", JStr "Request to Language service timed out")] |}
  /\ (d = Silent -> result (handler NodeFetch request env tokenPromise d) = Pending).
Proof.
  intros Hreach.
  pose proof (handler_when_reached NodeFetch _ _ _ d _ _ _ _ Hreach) as E.
  split; [rewrite E; reflexivity |].
  split; [symmetry; apply node_fetch_at_once |].
  split.
  - rewrite E. unfold result at 1. cbv beta iota zeta delta [snd].
    destruct (result (outbound NodeFetch d url query hdrs)) as [r | e |] eqn:Hr;
      try discriminate.
    destruct (outbound_returns_success_only _ _ _ _ _ _ Hr) as [Hst _].
    intros H. inversion H. subst r. discriminate.
  - intros ->. rewrite E. reflexivity.
Qed.

Lemma node_fetch_sets_no_bound_witness :
  handler NodeFetch (ask "Which projects use Azure?") local_env Unsettled
          (Responds 20000 200 answers_payload) =
  handler NodeFetch (ask "Which projects use Azure?") local_env Unsettled
          (Responds 0 200 answers_payload).
Proof.
  apply (node_fetch_sets_no_bound (ask "Which projects use Azure?") local_env Unsettled
           (Responds 20000 200 answers_payload) _ _ _ _ local_ask_reaches_call).
Defined.

(** C2, counterexample.  In the node-fetch file an answer that comes after
    20 seconds is still relayed: the handler answers 200, not 504. *)
Lemma late_answer_with_node_fetch :
  outbound_issued (handler NodeFetch (ask "Which projects use Azure?") local_env
                           Unsettled (Responds 20000 200 answers_payload)) = true
  /\ completes_within 15000 (Responds 20000 200 answers_payload) = false
  /\ result (handler NodeFetch (ask "Which projects use Azure?") local_env
                     Unsettled (Responds 20000 200 answers_payload)) =
     Normal {| status := 200; headers := json_content_type; body := JObj [] |}.
Proof. repeat split. Qed.

(** C1, as the code has it.  The two files give the same run whenever the
    invocation ends before the outbound call, and the same response when
    the call is answered within 15 seconds with a status in [200,300) and a
    body that is JSON. *)
Theorem variants_agree_in_part (request : request_body) (env : environment)
    (tokenPromise : promise access_token) (d : downstream) :
  (outbound_issued (handler Axios request env tokenPromise d) = false ->
   handler NodeFetch request env tokenPromise d = handler Axios request env tokenPromise d)
  /\ (forall t s p v,
        d = Responds t s p -> t <= 15000 -> 200 <= s < 300 -> payload_json p = inl v ->
        result (handler NodeFetch request env tokenPromise d) =
        result (handler Axios request env tokenPromise d)).
Proof.
  destruct (handler_shape request env tokenPromise)
    as [_ E | q _ E | q a ep pn _ _ _ _ _ _ E].
  1, 2: rewrite !E; repeat split; reflexivity.
  split.
  - intros H. rewrite E, issued_when_reached in H. discriminate.
  - intros t s p v -> Ht Hs Hv. apply validateStatus_inside in Hs.
    rewrite !E, !finish_result. simpl.
    rewrite axios_call_success, (fetch_call_success t s p v) by auto.
    unfold axios_data. rewrite Hv. reflexivity.
Qed.

Lemma variants_agree_in_part_witness :
  result (handler NodeFetch (ask "Which projects use Azure?") hosted_env quick_token
                  (Responds 40 200 answers_payload)) =
  result (handler Axios (ask "Which projects use Azure?") hosted_env quick_token
                  (Responds 40 200 answers_payload)).
Proof.
  destruct (variants_agree_in_part (ask "Which projects use Azure?") hosted_env
              quick_token (Responds 40 200 answers_payload)) as (_ & H).
  apply (H 40 200 answers_payload (JObj [])).
  - reflexivity.
  - apply N.leb_le. reflexivity.
  - lia.
  - reflexivity.
Defined.

(** C1, counterexample.  On an answer 204 with an empty body the axios
    file answers 200, with the empty text as its body, while the
    node-fetch file rejects: [response.json()] throws and the outer [catch]
    throws in turn. *)
Lemma empty_success_differs :
  result (handler Axios (ask "Which projects use Azure?") local_env Unsettled
                  (Responds 40 204 empty_payload)) =
    Normal {| status := 200;
              headers := [("Content-Type", "application/json")];
              body := JStr EmptyString |}
  /\ result (handler NodeFetch (ask "Which projects use Azure?") local_env Unsettled
                     (Responds 40 204 empty_payload)) = Throw log_error_missing
  /\ result (handler Axios (ask "Which projects use Azure?") local_env Unsettled
                     (Responds 40 204 empty_payload)) <>
     result (handler NodeFetch (ask "Which projects use Azure?") local_env Unsettled
                     (Responds 40 204 empty_payload)).
Proof. repeat split. discriminate. Qed.

(** A late answer is another place where the two files part: the axios
    file gives up after 15 seconds, the node-fetch file relays the answer. *)
Example late_answer_differs :
  returned_status (handler Axios (ask "Which projects use Azure?") local_env Unsettled
                           (Responds 20000 200 answers_payload)) = None
  /\ returned_status (handler NodeFetch (ask "Which projects use Azure?") local_env
                              Unsettled (Responds 20000 200 answers_payload)) = Some 200.
Proof. split; reflexivity. Qed.

(** C9, as the code has it.  When the inbound body is valid JSON other
    than [null] and has no [question] field, the parse step hands on
    "Tell me about your portfolio" and the invocation goes on exactly as if
    that question had been sent. *)
Theorem absent_question_is_defaulted (c : client) (v : value) (env : environment)
    (tokenPromise : promise access_token) (d : downstream) :
  v <> JNull ->
  question_field v = None ->
  parse_question (Json v) = ([], Normal (inr (JStr "Tell me about your portfolio")))
  /\ handler c (Json v) env tokenPromise d =
     handler c (ask "Tell me about your portfolio") env tokenPromise d.
Proof.
  intros Hnull Hq.
  assert (Hp : questionText_of (Json v) = Some (JStr "Tell me about your portfolio")).
  { destruct v; try reflexivity; [contradiction |].
    simpl in Hq. unfold questionText_of. rewrite Hq. reflexivity. }
  split.
  - rewrite parse_question_eq, Hp. reflexivity.
  - apply handler_depends_on_questionText. rewrite Hp. reflexivity.
Qed.

Lemma absent_question_is_defaulted_witness :
  outbound_queries (handler Axios (Json (JObj [("topic", JStr "azure")])) local_env
                            Unsettled (Responds 40 200 answers_payload)) =
  [{| question := JStr "Tell me about your portfolio"; top := 1 |}].
Proof.
  rewrite (proj2 (absent_question_is_defaulted Axios (JObj [("topic", JStr "azure")])
                    local_env Unsettled (Responds 40 200 answers_payload)
                    ltac:(discriminate) eq_refl)).
  reflexivity.
Defined.

(** C9, counterexample.  The body [null] is valid JSON and has no
    [question] field, yet the line that applies the default throws on it:
    the parse step hands nothing on, the outbound call is not issued
    although the configuration is complete, and the run is not the one of
    the default question. *)
Lemma null_body_is_rejected :
  request_json (Json JNull) = ([], Normal JNull)
  /\ question_field JNull = None
  /\ handler Axios (Json JNull) local_env Unsettled (Responds 40 200 answers_payload) =
     ([], Throw log_error_missing)
  /\ outbound_issued (handler Axios (ask "Tell me about your portfolio") local_env
                              Unsettled (Responds 40 200 answers_payload)) = true
  /\ handler Axios (ask "Tell me about your portfolio") local_env Unsettled
             (Responds 40 200 answers_payload) <>
     handler Axios (Json JNull) local_env Unsettled (Responds 40 200 answers_payload).
Proof. repeat split. discriminate. Qed.

(** C10, as the code has it.  When the [question] of the inbound object is
    falsy (the empty string, [null], [false] and 0 are), the default
    question takes its place and the invocation goes on as if the default
    had been sent; no outbound query ever carries the empty string; and
    when the [question] is truthy and can be written into the log line of
    the parse step, whatever its type, line 16 keeps it, the parse step
    hands it on, and the query of the outbound call, whenever the call is
    issued, carries it: as it is when the client is handed the object, as
    [JSON.stringify] writes it when the client is handed the text. *)
Theorem falsy_question_is_defaulted (c : client) (fields : list (string * value))
    (q : value) (env : environment) (tokenPromise : promise access_token)
    (d : downstream) :
  own_property "question" fields = Some q ->
  (truthy (JStr EmptyString) = false /\ truthy JNull = false /\ truthy (JBool false) = false
   /\ truthy (JNum (S754_zero false)) = false)
  /\ (truthy q = false ->
      parse_question (Json (JObj fields)) =
        ([], Normal (inr (JStr "Tell me about your portfolio")))
      /\ handler c (Json (JObj fields)) env tokenPromise d =
         handler c (ask "Tell me about your portfolio") env tokenPromise d)
  /\ (forall request oq,
        In oq (outbound_queries (handler c request env tokenPromise d)) ->
        question oq <> JStr EmptyString)
  /\ (truthy q = true ->
      tostring_throws q = false ->
      js_or (own_property "question" fields) (JStr "Tell me about your portfolio") = q
      /\ parse_question (Json (JObj fields)) = ([], Normal (inr q))
      /\ outbound_queries (handler c (Json (JObj fields)) env tokenPromise d) =
         if outbound_issued (handler c (Json (JObj fields)) env tokenPromise d)
         then [{| question := match c with
                              | Axios => q
                              | NodeFetch => stringified q
                              end;
                  top := 1 |}]
         else []).
Proof.
  intros Hq. split; [repeat split |]. split; [| split].
  - intros Hf.
    assert (Hp : questionText_of (Json (JObj fields))
                 = Some (JStr "Tell me about your portfolio")).
    { unfold questionText_of, js_or. rewrite Hq, Hf. reflexivity. }
    split.
    + rewrite parse_question_eq, Hp. reflexivity.
    + apply handler_depends_on_questionText. rewrite Hp. reflexivity.
  - intros request oq Hin.
    destruct (handler_queries _ _ _ _ _ _ Hin) as (q' & Hq' & ->).
    pose proof (questionText_not_empty request q' Hq') as Hne.
    destruct c; simpl; [assumption |].
    intros H. apply Hne. apply stringified_not_empty. assumption.
  - intros Ht Hs.
    assert (Hp : questionText_of (Json (JObj fields)) = Some q).
    { unfold questionText_of, js_or. rewrite Hq, Ht, Hs. reflexivity. }
    split; [unfold js_or; rewrite Hq, Ht; reflexivity |].
    split; [rewrite parse_question_eq, Hp; reflexivity |].
    rewrite (handler_queries_eq _ _ _ _ _ _ Hp). destruct c; reflexivity.
Qed.

Lemma falsy_question_is_defaulted_witness :
  outbound_queries (handler NodeFetch (ask EmptyString) local_env Unsettled
                            (Responds 40 200 answers_payload)) =
    [{| question := JStr "Tell me about your portfolio"; top := 1 |}]
  /\ outbound_queries (handler Axios (Json (JObj [("question", JBool true)])) local_env
                               Unsettled (Responds 40 200 answers_payload)) =
    [{| question := JBool true; top := 1 |}].
Proof.
  split.
  - destruct (falsy_question_is_defaulted NodeFetch [("question", JStr EmptyString)]
                (JStr EmptyString) local_env Unsettled
                (Responds 40 200 answers_payload) eq_refl)
      as (_ & Hdefault & _).
    unfold ask. rewrite (proj2 (Hdefault eq_refl)). reflexivity.
  - destruct (falsy_question_is_defaulted Axios [("question", JBool true)]
                (JBool true) local_env Unsettled
                (Responds 40 200 answers_payload) eq_refl)
      as (_ & _ & _ & Hkept).
    destruct (Hkept eq_refl eq_refl) as (_ & _ & Hqueries).
    rewrite Hqueries. reflexivity.
Defined.

(** C10, counterexample.  A truthy object that has an own [toString] key
    cannot be interpolated in the log line of the parse step: the request
    is refused there, and no outbound query carries the value, although the
    configuration is complete. *)
Lemma unprintable_question_is_rejected :
  truthy (JObj [("toString", JNull)]) = true
  /\ handler Axios (Json (JObj [("question", JObj [("toString", JNull)])]))
             local_env Unsettled (Responds 40 200 answers_payload) =
     ([], Throw log_error_missing)
  /\ outbound_queries
       (handler Axios (Json (JObj [("question", JObj [("toString", JNull)])]))
                local_env Unsettled (Responds 40 200 answers_payload)) = []
  /\ outbound_queries
       (handler Axios (Json (JObj [("question", JObj [("valueOf", JNull)])]))
                local_env Unsettled (Responds 40 200 answers_payload)) =
     [{| question := JObj [("valueOf", JNull)]; top := 1 |}].
Proof. repeat split. Qed.

Example truthy_number_is_passed_on :
  outbound_queries (handler Axios
                      (Json (JObj [("question", JNum (S754_finite false 21 1%Z))]))
                      local_env Unsettled (Responds 40 200 answers_payload)) =
  [{| question := JNum (S754_finite false 21 1%Z); top := 1 |}].
Proof. reflexivity. Qed.

(** A number beyond the range of doubles is parsed as an infinity, which is
    truthy; the axios client is handed it, the text handed to node-fetch
    holds [null]. *)
Example infinite_question_leaves_as_null :
  outbound_queries (handler Axios
                      (Json (JObj [("question", JNum (S754_infinity false))]))
                      local_env Unsettled (Responds 40 200 answers_payload)) =
    [{| question := JNum (S754_infinity false); top := 1 |}]
  /\ outbound_queries (handler NodeFetch
                         (Json (JObj [("question", JNum (S754_infinity false))]))
                         local_env Unsettled (Responds 40 200 answers_payload)) =
    [{| question := JNull; top := 1 |}].
Proof. split; reflexivity. Qed.

(** Both clients follow an answer 307 that names another address, and the
    handler then answers with what is found there. *)
Example redirect_is_followed :
  result (handler Axios (ask "Which projects use Azure?") local_env Unsettled
                  (Redirects 30 307 "https://kb.cognitiveservices.azure.com/query"
                             empty_payload (Responds 40 200 answers_payload))) =
    Normal {| status := 200; headers := json_content_type; body := JObj [] |}
  /\ result (handler NodeFetch (ask "Which projects use Azure?") local_env Unsettled
                     (Redirects 30 307 "https://kb.cognitiveservices.azure.com/query"
                                empty_payload (Responds 40 200 answers_payload))) =
    Normal {| status := 200; headers := json_content_type; body := JObj [] |}.
Proof. split; reflexivity. Qed.

(** * Further properties of the handler *)

(** ** The outbound request *)

(** X1.  An invocation issues the outbound call once or not at all: neither
    file repeats it, whatever the answer, the failure or the timeout
    ([maxRetries] has no effect). *)
Theorem outbound_call_is_not_repeated (c : client) (request : request_body)
    (env : environment) (tokenPromise : promise access_token) (d : downstream) :
  length (filter is_outbound (calls (handler c request env tokenPromise d))) =
  if outbound_issued (handler c request env tokenPromise d) then 1%nat else 0%nat.
Proof.
  destruct (handler_shape request env tokenPromise)
    as [_ E | q _ E | q a ep pn _ _ _ _ _ _ E]; rewrite !E.
  - reflexivity.
  - rewrite not_issued_before_call. unfold calls; simpl.
    rewrite (proj2 (proj2 (proj2 (token_calls_carry_no_request env)))). reflexivity.
  - rewrite issued_when_reached, calls_when_reached, filter_app.
    rewrite (proj2 (proj2 (proj2 (token_calls_carry_no_request env)))). reflexivity.
Qed.

(** X2.  The address of the outbound call is the configured endpoint,
    followed by the fixed query path in which only the project name
    varies. *)
Theorem outbound_url_is_built_from_configuration (c : client) (request : request_body)
    (env : environment) (tokenPromise : promise access_token) (d : downstream)
    (endpoint projectName : string) :
  outbound_issued (handler c request env tokenPromise d) = true ->
  LANGUAGE_SERVICE_ENDPOINT env = Some endpoint ->
  QA_KNOWLEDGE_BASE_ID env = Some projectName ->
  outbound_urls (handler c request env tokenPromise d) =
  [endpoint ++ "/language/:query-knowledgebases?projectName=" ++ projectName
            ++ "&deploymentName=production&api-version=2023-04-01"].
Proof.
  intros Hi Hep Hpn.
  destruct (outbound_issued_full _ _ _ _ _ Hi)
    as (q & a & ep & pn & _ & _ & Hep' & Hpn' & E).
  unfold outbound_urls. rewrite E, calls_when_reached, flat_map_app.
  rewrite (proj1 (token_calls_carry_no_request env)).
  rewrite Hep in Hep'. rewrite Hpn in Hpn'.
  inversion Hep'. inversion Hpn'. reflexivity.
Qed.

Lemma outbound_url_is_built_from_configuration_witness :
  outbound_urls (handler NodeFetch (ask "Which projects use Azure?") hosted_env
                         quick_token (Responds 40 200 answers_payload)) =
  ["https://portfolio.cognitiveservices.azure.com/language/:query-knowledgebases?projectName=portfolio-kb&deploymentName=production&api-version=2023-04-01"].
Proof.
  apply (outbound_url_is_built_from_configuration NodeFetch
           (ask "Which projects use Azure?") hosted_env quick_token
           (Responds 40 200 answers_payload)
           "https://portfolio.cognitiveservices.azure.com" "portfolio-kb");
    reflexivity.
Defined.

(** X3.  In local mode the outbound call carries the configured key in the
    [Ocp-Apim-Subscription-Key] header, beside the content type, and no
    [Authorization] header. *)
Theorem local_call_carries_subscription_key (c : client) (request : request_body)
    (env : environment) (tokenPromise : promise access_token) (d : downstream)
    (key : string) :
  isLocalDevelopment env = true ->
  LANGUAGE_SERVICE_KEY env = Some key ->
  outbound_issued (handler c request env tokenPromise d) = true ->
  outbound_headers (handler c request env tokenPromise d) =
  [[("Content-Type", "application/json"); ("Ocp-Apim-Subscription-Key", key)]].
Proof.
  intros Hl Hk Hi.
  destruct (outbound_issued_full _ _ _ _ _ Hi)
    as (q & a & ep & pn & _ & Ha & _ & _ & E).
  unfold outbound_headers. rewrite E, calls_when_reached, flat_map_app.
  rewrite (proj1 (proj2 (token_calls_carry_no_request env))). simpl.
  unfold auth_headers. rewrite Hl.
  unfold acquire_accessToken, required in Ha. rewrite Hl, Hk in Ha.
  destruct (not_set (Some key)); inversion Ha. reflexivity.
Qed.

Lemma local_call_carries_subscription_key_witness :
  outbound_headers (handler Axios (ask "Which projects use Azure?") local_env
                            Unsettled (Responds 40 200 answers_payload)) =
  [[("Content-Type", "application/json");
    ("Ocp-Apim-Subscription-Key", "0123456789abcdef")]].
Proof.
  apply (local_call_carries_subscription_key Axios (ask "Which projects use Azure?")
           local_env Unsettled (Responds 40 200 answers_payload) "0123456789abcdef");
    reflexivity.
Defined.

(** X4.  In hosted mode the outbound call is issued only when the token
    request was fulfilled within 10 seconds, and it then carries that token
    in an [Authorization: Bearer] header, beside the content type; the
    configured key is not sent. *)
Theorem hosted_call_carries_bearer_token (c : client) (request : request_body)
    (env : environment) (tokenPromise : promise access_token) (d : downstream) :
  isLocalDevelopment env = false ->
  outbound_issued (handler c request env tokenPromise d) = true ->
  exists t tokenResponse,
    tokenPromise = Settles t (inl tokenResponse)
    /\ t <= 10000
    /\ outbound_headers (handler c request env tokenPromise d) =
       [[("Content-Type", "application/json");
         ("Authorization", "Bearer " ++ token tokenResponse)]].
Proof.
  intros Hl Hi.
  destruct (outbound_issued_full _ _ _ _ _ Hi)
    as (q & a & ep & pn & _ & Ha & _ & _ & E).
  unfold acquire_accessToken in Ha. rewrite Hl in Ha.
  destruct tokenPromise as [t [tk | e] |]; unfold race, timeoutPromise in Ha;
    try (destruct (t <=? 10000) eqn:Ht); simpl in Ha; try discriminate.
  exists t, tk. split; [reflexivity |]. split; [apply N.leb_le; assumption |].
  unfold outbound_headers. rewrite E, calls_when_reached, flat_map_app.
  rewrite (proj1 (proj2 (token_calls_carry_no_request env))). simpl.
  unfold auth_headers. rewrite Hl. inversion Ha. reflexivity.
Qed.

Lemma hosted_call_carries_bearer_token_witness :
  outbound_headers (handler Axios (ask "Which projects use Azure?") hosted_env
                            quick_token (Responds 40 200 answers_payload)) =
  [[("Content-Type", "application/json"); ("Authorization", "Bearer eyJ0eXAi")]].
Proof.
  destruct (hosted_call_carries_bearer_token Axios (ask "Which projects use Azure?")
              hosted_env quick_token (Responds 40 200 answers_payload)
              eq_refl eq_refl) as (t & tk & Htk & _ & H).
  rewrite H. inversion Htk. reflexivity.
Defined.

(** X5.  The axios file bounds its outbound call by 15000 ms; the
    node-fetch file hands its client no bound at all. *)
Theorem only_axios_sets_a_timeout (c : client) (request : request_body)
    (env : environment) (tokenPromise : promise access_token) (d : downstream) :
  outbound_issued (handler c request env tokenPromise d) = true ->
  outbound_timeouts (handler c request env tokenPromise d) =
  [match c with Axios => Some 15000 | NodeFetch => None end].
Proof.
  intros Hi.
  destruct (outbound_issued_full _ _ _ _ _ Hi)
    as (q & a & ep & pn & _ & _ & _ & _ & E).
  unfold outbound_timeouts. rewrite E, calls_when_reached, flat_map_app.
  rewrite (proj1 (proj2 (proj2 (token_calls_carry_no_request env)))).
  destruct c; reflexivity.
Qed.

Lemma only_axios_sets_a_timeout_witness :
  outbound_timeouts (handler NodeFetch (ask "Which projects use Azure?") local_env
                             Unsettled (Responds 40 200 answers_payload)) = [None].
Proof.
  apply (only_axios_sets_a_timeout NodeFetch (ask "Which projects use Azure?")
           local_env Unsettled (Responds 40 200 answers_payload)).
  reflexivity.
Defined.

(** ** The credential *)

(** X6.  In hosted mode, when the token request of the invocation is
    rejected within 10 seconds, the inner [catch] calls [context.log.error]
    (line 56), which throws before the "Failed to authenticate" error is
    built; the outer [catch] throws in the same way.  The handler rejects,
    and the token request is the only call that left it. *)
Theorem rejected_token_makes_handler_throw (c : client) (request : request_body)
    (env : environment) (t : N) (e : js_error) (d : downstream) :
  isLocalDevelopment env = false ->
  token_requested (handler c request env (Settles t (inr e)) d) = true ->
  t <= 10000 ->
  acquire_accessToken env (Settles t (inr e)) =
    ([GetToken (MANAGED_IDENTITY_CLIENT_ID env)
               "https://cognitiveservices.azure.com/.default"],
     Throw log_error_missing)
  /\ handler c request env (Settles t (inr e)) d =
     ([GetToken (MANAGED_IDENTITY_CLIENT_ID env)
                "https://cognitiveservices.azure.com/.default"],
      Throw log_error_missing).
Proof.
  intros Hl Hreq Ht.
  pose proof (acquire_accessToken_rejected env t e Hl Ht) as Ha.
  split; [exact Ha |].
  exact (handler_without_credential _ _ _ _ _ _ _ Hreq Ha).
Qed.

Lemma rejected_token_makes_handler_throw_witness :
  handler Axios (ask "Which projects use Azure?") hosted_env
          (Settles 300 (inr (Error "ManagedIdentityCredential unavailable")))
          (Responds 40 200 answers_payload) =
  ([GetToken (Some "7c1e") "https://cognitiveservices.azure.com/.default"],
   Throw log_error_missing).
Proof.
  apply (rejected_token_makes_handler_throw Axios (ask "Which projects use Azure?")
           hosted_env 300 (Error "ManagedIdentityCredential unavailable")
           (Responds 40 200 answers_payload)).
  - reflexivity.
  - reflexivity.
  - apply N.leb_le. reflexivity.
Defined.

(** X7.  In local mode the handler never asks for a token, and the
    managed-identity provider has no influence on the run. *)
Theorem local_mode_ignores_managed_identity (c : client) (request : request_body)
    (env : environment) (tokenPromise tokenPromise' : promise access_token)
    (d : downstream) :
  isLocalDevelopment env = true ->
  token_requested (handler c request env tokenPromise d) = false
  /\ handler c request env tokenPromise d = handler c request env tokenPromise' d.
Proof.
  intros Hl. split.
  - unfold token_requested.
    destruct (handler_shape request env tokenPromise)
      as [_ E | q _ E | q a ep pn _ _ _ _ _ _ E]; rewrite E;
      rewrite ?calls_when_reached; unfold calls; simpl;
      rewrite ?(token_calls_local env Hl); reflexivity.
  - unfold handler, guarded, relay, acquire_accessToken. rewrite Hl. reflexivity.
Qed.

Lemma local_mode_ignores_managed_identity_witness :
  handler Axios (ask "Which projects use Azure?") local_env Unsettled
          (Responds 40 200 answers_payload) =
  handler Axios (ask "Which projects use Azure?") local_env quick_token
          (Responds 40 200 answers_payload).
Proof.
  apply (local_mode_ignores_managed_identity Axios (ask "Which projects use Azure?")
           local_env Unsettled quick_token (Responds 40 200 answers_payload)).
  reflexivity.
Defined.

(** X8.  In hosted mode [LANGUAGE_SERVICE_KEY] is never read: two
    environments that differ in that variable only give the same run. *)
Theorem hosted_mode_ignores_key (c : client) (request : request_body)
    (env env' : environment) (tokenPromise : promise access_token) (d : downstream) :
  isLocalDevelopment env = false ->
  WEBSITE_INSTANCE_ID env' = WEBSITE_INSTANCE_ID env ->
  MANAGED_IDENTITY_CLIENT_ID env' = MANAGED_IDENTITY_CLIENT_ID env ->
  LANGUAGE_SERVICE_ENDPOINT env' = LANGUAGE_SERVICE_ENDPOINT env ->
  QA_KNOWLEDGE_BASE_ID env' = QA_KNOWLEDGE_BASE_ID env ->
  handler c request env' tokenPromise d = handler c request env tokenPromise d.
Proof.
  intros Hl Hw Hm He Hq.
  assert (Hl' : isLocalDevelopment env' = false).
  { unfold isLocalDevelopment in *. rewrite Hw. assumption. }
  unfold handler, guarded, relay, acquire_accessToken.
  rewrite Hl, Hl', Hm, He, Hq. reflexivity.
Qed.

Lemma hosted_mode_ignores_key_witness :
  handler Axios (ask "Which projects use Azure?")
          {| WEBSITE_INSTANCE_ID := Some "4f2a";
             LANGUAGE_SERVICE_KEY := Some "0123456789abcdef";
             MANAGED_IDENTITY_CLIENT_ID := Some "7c1e";
             LANGUAGE_SERVICE_ENDPOINT := Some "https://portfolio.cognitiveservices.azure.com";
             QA_KNOWLEDGE_BASE_ID := Some "portfolio-kb" |}
          quick_token (Responds 40 200 answers_payload) =
  handler Axios (ask "Which projects use Azure?") hosted_env quick_token
          (Responds 40 200 answers_payload).
Proof.
  apply (hosted_mode_ignores_key Axios (ask "Which projects use Azure?") hosted_env);
    reflexivity.
Defined.

(** X9.  In hosted mode, once the body has passed the parse step, the first
    call of the run is the token request, made for the configured client
    identifier and the scope of the cognitive services; it is made before
    the endpoint and the project are read, so also when they are missing. *)
Theorem hosted_mode_requests_token_first (c : client) (request : request_body)
    (env : environment) (tokenPromise : promise access_token) (d : downstream)
    (q : value) :
  isLocalDevelopment env = false ->
  parse_question request = ([], Normal (inr q)) ->
  exists rest,
    calls (handler c request env tokenPromise d) =
    GetToken (MANAGED_IDENTITY_CLIENT_ID env)
             "https://cognitiveservices.azure.com/.default" :: rest.
Proof.
  intros Hl Hp. apply parse_question_inv in Hp.
  destruct (handler_shape request env tokenPromise)
    as [Hn _ | q' _ E | q' a ep pn _ _ _ _ _ _ E].
  - congruence.
  - rewrite E. unfold calls; simpl. rewrite (token_calls_hosted env Hl).
    eexists; reflexivity.
  - rewrite E, calls_when_reached, (token_calls_hosted env Hl).
    eexists; reflexivity.
Qed.

Lemma hosted_mode_requests_token_first_witness :
  exists rest,
    calls (handler Axios (ask "Which projects use Azure?")
                   {| WEBSITE_INSTANCE_ID := Some "4f2a";
                      LANGUAGE_SERVICE_KEY := None;
                      MANAGED_IDENTITY_CLIENT_ID := Some "7c1e";
                      LANGUAGE_SERVICE_ENDPOINT := None;
                      QA_KNOWLEDGE_BASE_ID := None |}
                   quick_token Silent) =
    GetToken (Some "7c1e") "https://cognitiveservices.azure.com/.default" :: rest.
Proof.
  apply (hosted_mode_requests_token_first Axios (ask "Which projects use Azure?")
           {| WEBSITE_INSTANCE_ID := Some "4f2a";
              LANGUAGE_SERVICE_KEY := None;
              MANAGED_IDENTITY_CLIENT_ID := Some "7c1e";
              LANGUAGE_SERVICE_ENDPOINT := None;
              QA_KNOWLEDGE_BASE_ID := None |}
           quick_token Silent (JStr "Which projects use Azure?"));
    reflexivity.
Defined.

(** ** The answer to the caller *)

(** X10.  In the axios file, when the outbound call fails without any
    response, the [catch] calls [context.log.error] (line 119) before it
    looks at the error; the call throws and so does the outer [catch].  The
    "Failed to connect to Language service" response is not returned: the
    handler rejects. *)
Theorem axios_transport_failure_makes_handler_throw (request : request_body)
    (env : environment) (tokenPromise : promise access_token)
    (before : list event) (url : string) (query : outbound_query)
    (hdrs : list (string * string)) (t : N) (errno reason : string) :
  reaches_call request env tokenPromise before url query hdrs ->
  handler Axios request env tokenPromise (Fails t errno reason) =
  ((before ++ [HttpPost url hdrs query (Some 15000)])%list, Throw log_error_missing).
Proof.
  intros Hreach.
  rewrite (handler_when_reached Axios _ _ _ _ _ _ _ _ Hreach).
  unfold outbound. rewrite axios_call_eq. reflexivity.
Qed.

Lemma axios_transport_failure_makes_handler_throw_witness :
  result (handler Axios (ask "Which projects use Azure?") local_env Unsettled
                  (Fails 12 "ECONNREFUSED" "connect ECONNREFUSED")) =
  Throw log_error_missing.
Proof.
  rewrite (axios_transport_failure_makes_handler_throw _ _ _ _ _ _ _
             12 "ECONNREFUSED" "connect ECONNREFUSED" local_ask_reaches_call).
  reflexivity.
Defined.

(** X11.  In the axios file, when the outbound call is not answered within
    15 seconds (the answer comes later, or never), the client gives up, and
    the [catch] calls [context.log.error] (line 119) before it tests the
    code ECONNABORTED.  The 504 response is not returned: the handler
    rejects. *)
Theorem axios_timeout_makes_handler_throw (request : request_body)
    (env : environment) (tokenPromise : promise access_token) (d : downstream)
    (before : list event) (url : string) (query : outbound_query)
    (hdrs : list (string * string)) :
  reaches_call request env tokenPromise before url query hdrs ->
  d = Silent \/ (exists t s p, d = Responds t s p /\ 15000 < t) ->
  handler Axios request env tokenPromise d =
  ((before ++ [HttpPost url hdrs query (Some 15000)])%list, Throw log_error_missing).
Proof.
  intros Hreach Hlate.
  rewrite (handler_when_reached Axios _ _ _ _ _ _ _ _ Hreach).
  unfold outbound. rewrite axios_call_eq.
  destruct Hlate as [-> | (t & s & p & -> & Ht)]; [reflexivity |].
  apply N.leb_gt in Ht. unfold axios_transport; simpl. unfold axios_settle.
  destruct (validateStatus s); simpl; rewrite ?Ht; reflexivity.
Qed.

Lemma axios_timeout_makes_handler_throw_witness :
  result (handler Axios (ask "Which projects use Azure?") local_env Unsettled
                  (Responds 20000 200 answers_payload)) = Throw log_error_missing.
Proof.
  rewrite (axios_timeout_makes_handler_throw _ _ _ (Responds 20000 200 answers_payload)
             _ _ _ _ local_ask_reaches_call
             (or_intror (ex_intro _ 20000 (ex_intro _ 200 (ex_intro _ answers_payload
                (conj eq_refl eq_refl)))))).
  reflexivity.
Defined.

(** X12.  In the node-fetch file a failure of the outbound call without any
    response reaches the outer [catch], whose first statement is
    [context.log.error] (line 120): the 500 response is not returned, the
    handler rejects. *)
Theorem fetch_transport_failure_makes_handler_throw (request : request_body)
    (env : environment) (tokenPromise : promise access_token)
    (before : list event) (url : string) (query : outbound_query)
    (hdrs : list (string * string)) (t : N) (errno reason : string) :
  reaches_call request env tokenPromise before url query hdrs ->
  handler NodeFetch request env tokenPromise (Fails t errno reason) =
  ((before ++ [HttpPost url hdrs (stringified_query query) None])%list,
   Throw log_error_missing).
Proof.
  intros Hreach.
  rewrite (handler_when_reached NodeFetch _ _ _ _ _ _ _ _ Hreach).
  unfold outbound. rewrite fetch_call_eq. reflexivity.
Qed.

Lemma fetch_transport_failure_makes_handler_throw_witness :
  result (handler NodeFetch (ask "Which projects use Azure?") local_env Unsettled
                  (Fails 12 "ECONNREFUSED" "connect ECONNREFUSED")) =
  Throw log_error_missing.
Proof.
  rewrite (fetch_transport_failure_makes_handler_throw _ _ _ _ _ _ _
             12 "ECONNREFUSED" "connect ECONNREFUSED" local_ask_reaches_call).
  reflexivity.
Defined.

(** X13.  In the node-fetch file an answer with a status in [200,300) whose
    body is not JSON makes [response.json()] throw (line 107); the outer
    [catch] then calls [context.log.error] (line 120), which throws: no
    response is returned, the handler rejects. *)
Theorem fetch_unreadable_success_makes_handler_throw (request : request_body)
    (env : environment) (tokenPromise : promise access_token)
    (before : list event) (url : string) (query : outbound_query)
    (hdrs : list (string * string)) (t s : N) (p : payload) (why : string) :
  reaches_call request env tokenPromise before url query hdrs ->
  200 <= s < 300 ->
  payload_json p = inr why ->
  handler NodeFetch request env tokenPromise (Responds t s p) =
  ((before ++ [HttpPost url hdrs (stringified_query query) None])%list,
   Throw log_error_missing).
Proof.
  intros Hreach Hs Hp. apply validateStatus_inside in Hs.
  rewrite (handler_when_reached NodeFetch _ _ _ _ _ _ _ _ Hreach).
  unfold outbound. rewrite fetch_call_eq. unfold fetch_transport; simpl.
  rewrite Hs, Hp. reflexivity.
Qed.

Lemma fetch_unreadable_success_makes_handler_throw_witness :
  result (handler NodeFetch (ask "Which projects use Azure?") local_env Unsettled
                  (Responds 40 204 empty_payload)) = Throw log_error_missing.
Proof.
  rewrite (fetch_unreadable_success_makes_handler_throw _ _ _ _ _ _ _
             40 204 empty_payload "Unexpected end of JSON input"
             local_ask_reaches_call ltac:(lia) eq_refl).
  reflexivity.
Defined.

(** X14.  In the axios file an answer within 15 seconds with a status in
    [200,300) whose body is not JSON is still answered 200: the body of the
    response is the text of the answer, as a JSON string. *)
Theorem axios_unreadable_success_is_relayed_as_text (request : request_body)
    (env : environment) (tokenPromise : promise access_token)
    (t s : N) (p : payload) (why : string) :
  outbound_issued (handler Axios request env tokenPromise (Responds t s p)) = true ->
  t <= 15000 ->
  200 <= s < 300 ->
  payload_json p = inr why ->
  result (handler Axios request env tokenPromise (Responds t s p)) =
  Normal {| status := 200;
            headers := [("Content-Type", "application/json")];
            body := JStr (payload_text p) |}.
Proof.
  intros Hi Ht Hs Hp. apply validateStatus_inside in Hs.
  destruct (outbound_issued_full _ _ _ _ _ Hi)
    as (q & a & ep & pn & _ & _ & _ & _ & E).
  rewrite E, finish_result. simpl. rewrite axios_call_success by assumption.
  unfold axios_data. rewrite Hp. reflexivity.
Qed.

Lemma axios_unreadable_success_is_relayed_as_text_witness :
  result (handler Axios (ask "Which projects use Azure?") local_env Unsettled
                  (Responds 40 204 empty_payload)) =
  Normal {| status := 200;
            headers := [("Content-Type", "application/json")];
            body := JStr EmptyString |}.
Proof.
  apply (axios_unreadable_success_is_relayed_as_text (ask "Which projects use Azure?")
           local_env Unsettled 40 204 empty_payload "Unexpected end of JSON input").
  - reflexivity.
  - apply N.leb_le. reflexivity.
  - lia.
  - reflexivity.
Defined.

(** X16.  Every response of the handler has one of two shapes: status 200
    with the JSON content type, or no header at all and a body whose
    [error] field is a string. *)
Theorem response_is_success_or_carries_error (c : client) (request : request_body)
    (env : environment) (tokenPromise : promise access_token) (d : downstream)
    (r : http_response) :
  result (handler c request env tokenPromise d) = Normal r ->
  (status r = 200 /\ headers r = [("Content-Type", "application/json")])
  \/ (headers r = [] /\ exists msg, error_of r = Some (JStr msg)).
Proof.
  destruct (handler_shape request env tokenPromise)
    as [_ E | q _ E | q a ep pn _ _ _ _ _ _ E]; rewrite E; try discriminate.
  rewrite finish_result.
  destruct (result (outbound c d _ _ _)) as [r' | e |] eqn:Ho;
    intros H; inversion H; subst.
  left. exact (outbound_returns_success_only _ _ _ _ _ _ Ho).
Qed.

Lemma response_is_success_or_carries_error_witness :
  (status {| status := 200; headers := json_content_type; body := JObj [] |} = 200
   /\ headers {| status := 200; headers := json_content_type; body := JObj [] |}
      = [("Content-Type", "application/json")])
  \/ (headers {| status := 200; headers := json_content_type; body := JObj [] |} = []
      /\ exists msg,
           error_of {| status := 200; headers := json_content_type; body := JObj [] |}
           = Some (JStr msg)).
Proof.
  exact (response_is_success_or_carries_error Axios (ask "Which projects use Azure?")
           local_env Unsettled (Responds 40 200 answers_payload)
           {| status := 200; headers := json_content_type; body := JObj [] |} eq_refl).
Defined.

(** X17.  The status of a response is 200, 400, 500, the 504 of the axios
    file, or the very status that the knowledge-base service answered with;
    no other status is ever produced. *)
Theorem status_is_fixed_or_relayed (c : client) (request : request_body)
    (env : environment) (tokenPromise : promise access_token) (d : downstream)
    (r : http_response) :
  result (handler c request env tokenPromise d) = Normal r ->
  status r = 200 \/ status r = 400 \/ status r = 500
  \/ (c = Axios /\ status r = 504)
  \/ exists t p, d = Responds t (status r) p.
Proof.
  destruct (handler_shape request env tokenPromise)
    as [_ E | q _ E | q a ep pn _ _ _ _ _ _ E]; rewrite E; try discriminate.
  rewrite finish_result.
  destruct (result (outbound c d _ _ _)) as [r' | e |] eqn:Ho;
    intros H; inversion H; subst.
  left. exact (proj1 (outbound_returns_success_only _ _ _ _ _ _ Ho)).
Qed.

Lemma status_is_fixed_or_relayed_witness :
  status {| status := 200; headers := json_content_type; body := JObj [] |} = 200
  \/ status {| status := 200; headers := json_content_type; body := JObj [] |} = 400
  \/ status {| status := 200; headers := json_content_type; body := JObj [] |} = 500
  \/ (NodeFetch = Axios
      /\ status {| status := 200; headers := json_content_type; body := JObj [] |} = 504)
  \/ exists t p,
       Responds 40 200 answers_payload =
       Responds t (status {| status := 200; headers := json_content_type;
                             body := JObj [] |}) p.
Proof.
  exact (status_is_fixed_or_relayed NodeFetch (ask "Which projects use Azure?")
           local_env Unsettled (Responds 40 200 answers_payload)
           {| status := 200; headers := json_content_type; body := JObj [] |} eq_refl).
Defined.

(** X18.  A run of the handler ends in one of three ways: it returns a
    response, which is then a 200 with the JSON content type, after the
    outbound call; or it rejects with the TypeError of [context.log.error],
    which is how every failure ends; or, with node-fetch only and after the
    outbound call was issued, it stays pending. *)
Theorem handler_answers_200_or_throws (c : client) (request : request_body)
    (env : environment) (tokenPromise : promise access_token) (d : downstream) :
  (exists r, result (handler c request env tokenPromise d) = Normal r
             /\ status r = 200
             /\ headers r = [("Content-Type", "application/json")]
             /\ outbound_issued (handler c request env tokenPromise d) = true)
  \/ result (handler c request env tokenPromise d) =
     Throw {| message := "context.log.error is not a function";
              code := None;
              response := None |}
  \/ (result (handler c request env tokenPromise d) = Pending
      /\ c = NodeFetch
      /\ outbound_issued (handler c request env tokenPromise d) = true).
Proof.
  destruct (handler_shape request env tokenPromise)
    as [_ E | q _ E | q a ep pn _ _ _ _ _ _ E]; rewrite !E;
    try (right; left; reflexivity).
  rewrite finish_result, issued_when_reached.
  destruct (result (outbound c d _ _ _)) as [r | e |] eqn:Ho.
  - left. exists r.
    destruct (outbound_returns_success_only _ _ _ _ _ _ Ho). auto.
  - right; left; reflexivity.
  - right; right. split; [reflexivity |]. split; [| reflexivity].
    destruct c; [| reflexivity].
    simpl in Ho. rewrite axios_call_eq in Ho. unfold result in Ho; simpl in Ho.
    destruct (axios_transport d) as [t [resp | e] |]; try discriminate.
    destruct (t <=? 15000); discriminate.
Qed.

(** ** The inbound question *)

(** X21.  A truthy [question] that cannot be written into the log line of
    the parse step (an object with an own [toString] key, or an array that
    holds one) never reaches the credential step: the template literal of
    line 17 throws, the inner [catch] and the outer one throw at
    [context.log.error], and the handler rejects without any call. *)
Theorem unprintable_question_is_refused (c : client) (fields : list (string * value))
    (q : value) (env : environment) (tokenPromise : promise access_token)
    (d : downstream) :
  own_property "question" fields = Some q ->
  truthy q = true ->
  tostring_throws q = true ->
  handler c (Json (JObj fields)) env tokenPromise d = ([], Throw log_error_missing).
Proof.
  intros Hq Ht Hthrows.
  unfold handler, guarded, relay. rewrite parse_question_eq.
  unfold questionText_of, js_or. rewrite Hq, Ht, Hthrows. reflexivity.
Qed.

Lemma unprintable_question_is_refused_witness :
  handler NodeFetch
          (Json (JObj [("question", JArr [JStr "a"; JObj [("toString", JBool true)]])]))
          local_env Unsettled (Responds 40 200 answers_payload) =
  ([], Throw log_error_missing).
Proof.
  apply (unprintable_question_is_refused NodeFetch
           [("question", JArr [JStr "a"; JObj [("toString", JBool true)]])]
           (JArr [JStr "a"; JObj [("toString", JBool true)]])
           local_env Unsettled (Responds 40 200 answers_payload));
    reflexivity.
Defined.

(** X22.  Whatever the inbound body, the query of an outbound call asks for
    one answer.  The question that the axios client is handed is truthy;
    the question in the text that node-fetch is handed is truthy or
    [null], and it is never [false], 0 or the empty string. *)
Theorem outbound_question_is_truthy_or_null (c : client) (request : request_body)
    (env : environment) (tokenPromise : promise access_token) (d : downstream)
    (oq : outbound_query) :
  In oq (outbound_queries (handler c request env tokenPromise d)) ->
  top oq = 1
  /\ (truthy (question oq) = true \/ (c = NodeFetch /\ question oq = JNull)).
Proof.
  intros Hin.
  destruct (handler_queries _ _ _ _ _ _ Hin) as (q & Hq & ->).
  destruct (questionText_is_sound request q Hq) as [Ht _].
  destruct c; simpl; split; auto.
  destruct (stringified_truthy q Ht); auto.
Qed.

Lemma outbound_question_is_truthy_or_null_witness :
  1 = 1
  /\ (truthy JNull = true \/ (NodeFetch = NodeFetch /\ JNull = JNull)).
Proof.
  exact (outbound_question_is_truthy_or_null NodeFetch
           (Json (JObj [("question", JNum (S754_infinity false))])) local_env Unsettled
           (Responds 40 200 answers_payload)
           {| question := JNull; top := 1 |} (or_introl eq_refl)).
Defined.
